(** * GBCS prototype: the two views of the leaf-classification front end

  A shallow embedding of the script blocks of
  [LiveIdentification.vue] (module [Live]) and of the benchmark view
  [PipelineVisualizer.vue] (module [Benchmark]), together with the parts
  of their templates that decide what the user sees.

  Each Vue [ref] is a field of a state record.  The browser is part of
  the state too: the queue of pending [setTimeout] callbacks, the
  [getUserMedia] promises that have not settled, the media tracks that
  are live, the alerts shown.  An event handler is a function on states;
  a callback that the source passes to [setTimeout] or that follows an
  [await] is a constructor, run by the event that fires it. *)

From Stdlib Require Import ZArith QArith Qminmax Lqa String Ascii List Bool Lia.
From Stdlib Require Import DecimalString.
Import ListNotations.

Local Open Scope string_scope.
Local Open Scope Z_scope.

(** ** The JavaScript string and number methods the source calls

  A string is a sequence of code units; the methods below act on the
  ASCII range, which is where every literal the source compares against
  lives ([image/], the extensions, the dataset keywords, the two
  separators). *)
Module JS.

Definition isUpper (c : ascii) : bool :=
  ((65 <=? nat_of_ascii c) && (nat_of_ascii c <=? 90))%nat.

Definition lowerChar (c : ascii) : ascii :=
  if isUpper c then ascii_of_nat (nat_of_ascii c + 32) else c.

(** [s.toLowerCase()] *)
Fixpoint toLowerCase (s : string) : string :=
  match s with
  | EmptyString => EmptyString
  | String c r => String (lowerChar c) (toLowerCase r)
  end.

(** [s.startsWith(p)] *)
Fixpoint startsWith (s p : string) : bool :=
  match p, s with
  | EmptyString, _ => true
  | String _ _, EmptyString => false
  | String b p', String a s' => Ascii.eqb a b && startsWith s' p'
  end.

(** [s.includes(p)] *)
Fixpoint includes (s p : string) : bool :=
  startsWith s p ||
  match s with
  | EmptyString => false
  | String _ s' => includes s' p
  end.

(** [s.endsWith(p)] *)
Definition endsWith (s p : string) : bool :=
  let n := String.length s in
  let m := String.length p in
  ((m <=? n)%nat && String.eqb (substring (n - m) m s) p)%bool.

(** The backslash, by its code. *)
Definition backslash : ascii := "092".

(** The character class of the regular expression of [formatPathLabel]:
    a slash or a backslash. *)
Definition isSeparator (c : ascii) : bool :=
  (Ascii.eqb c "/" || Ascii.eqb c backslash)%bool.

(** [s.split(sep)] for that expression: never empty; an empty string
    gives one empty part, a trailing separator gives a last part that is
    empty. *)
Fixpoint splitPath (s : string) : list string :=
  match s with
  | EmptyString => [EmptyString]
  | String c r =>
      if isSeparator c then EmptyString :: splitPath r
      else match splitPath r with
           | [] => [String c EmptyString]
           | h :: t => String c h :: t
           end
  end.

(** The string contains one of the two separators. *)
Fixpoint hasSeparator (s : string) : bool :=
  match s with
  | EmptyString => false
  | String c r => isSeparator c || hasSeparator r
  end.

(** [x || y] on strings: the empty string is the falsy one. *)
Definition orElse (x y : string) : string :=
  match x with
  | EmptyString => y
  | _ => x
  end.

Definition digits (n : Z) : string :=
  NilZero.string_of_uint (N.to_uint (Z.to_N n)).

(** [x.toFixed(1)]: the decimal with one fractional digit nearest to
    [x], the larger one on a tie, with the sign in front.  The numbers
    of this program are literals with one fractional digit, which are
    printed back exactly. *)
Definition toFixed1 (x : Q) : string :=
  let d := Z.pos (Qden x) in
  let n := (2 * 10 * Z.abs (Qnum x) + d) / (2 * d) in
  let body := digits (n / 10) ++ "." ++ digits (n mod 10) in
  if Qnum x <? 0 then "-" ++ body else body.

End JS.

(** ** The DOM values the handlers receive *)
Module Dom.

(** A [File]: its name, its declared mime type and, for a file picked
    through a directory input, its path relative to the picked folder
    (empty otherwise). *)
Record File : Type := mkFile {
  name : string;
  type : string;
  webkitRelativePath : string
}.

(** [FileList | null] *)
Definition FileList : Type := option (list File).

(** A media track, named by a number; a [MediaStream] is the list of
    its tracks ([getTracks()]). *)
Definition Track : Type := nat.

Record MediaStream : Type := mkStream { getTracks : list Track }.

(** The error a rejected promise carries: [err.name], [err.message]. *)
Record DOMError : Type := mkError {
  err_name : string;
  err_message : string
}.

End Dom.

(** ** The live-identification view, [LiveIdentification.vue] *)
Module Live.
Import Dom.

Inductive Stage : Type := idle | processing | done.

(** The callback of the only [setTimeout] of this view (1500 ms). *)
Inductive Timer : Type := ClassificationDone.

(** The three [getUserMedia] calls of [startCamera], by their
    constraints: ideal resolution on the rear camera, the rear camera
    alone, [video: true]. *)
Inductive Attempt : Type := Ideal | Relaxed | AnyCamera.

(** How a [getUserMedia] promise settles.  The value it resolves with
    is a stream; [None] stands for a falsy value, which the source
    guards against. *)
Inductive Settled : Type :=
| Resolved (stream : option MediaStream)
| Rejected (err : DOMError).

(** The [<video>] element of the overlay. *)
Record Video : Type := mkVideo { srcObject : option MediaStream }.

Record State : Type := mkState {
  (* the refs of the component *)
  stage : Stage;
  selectedFileName : option string;
  predictedSpecies : option string;
  confidence : option Q;
  isCameraOpen : bool;
  cameraError : option string;
  videoRef : option Video;
  cameraStream : option MediaStream;
  (* the browser *)
  mounted : bool;
  getUserMedia : bool;          (* [navigator.mediaDevices?.getUserMedia] is there *)
  alerts : list string;         (* the [alert] boxes shown, oldest first *)
  timers : list Timer;          (* pending [setTimeout] callbacks, oldest first *)
  pendingMedia : list Attempt;  (* [getUserMedia] promises not yet settled *)
  pendingBlobs : nat;           (* [toBlob] callbacks not yet called *)
  liveTracks : list Track       (* media tracks handed out and not stopped *)
}.

Definition set_stage (v : Stage) (s : State) : State :=
  mkState v (selectedFileName s) (predictedSpecies s) (confidence s)
    (isCameraOpen s) (cameraError s) (videoRef s) (cameraStream s)
    (mounted s) (getUserMedia s) (alerts s) (timers s) (pendingMedia s)
    (pendingBlobs s) (liveTracks s).

Definition set_selectedFileName (v : option string) (s : State) : State :=
  mkState (stage s) v (predictedSpecies s) (confidence s)
    (isCameraOpen s) (cameraError s) (videoRef s) (cameraStream s)
    (mounted s) (getUserMedia s) (alerts s) (timers s) (pendingMedia s)
    (pendingBlobs s) (liveTracks s).

Definition set_predictedSpecies (v : option string) (s : State) : State :=
  mkState (stage s) (selectedFileName s) v (confidence s)
    (isCameraOpen s) (cameraError s) (videoRef s) (cameraStream s)
    (mounted s) (getUserMedia s) (alerts s) (timers s) (pendingMedia s)
    (pendingBlobs s) (liveTracks s).

Definition set_confidence (v : option Q) (s : State) : State :=
  mkState (stage s) (selectedFileName s) (predictedSpecies s) v
    (isCameraOpen s) (cameraError s) (videoRef s) (cameraStream s)
    (mounted s) (getUserMedia s) (alerts s) (timers s) (pendingMedia s)
    (pendingBlobs s) (liveTracks s).

Definition set_isCameraOpen (v : bool) (s : State) : State :=
  mkState (stage s) (selectedFileName s) (predictedSpecies s) (confidence s)
    v (cameraError s) (videoRef s) (cameraStream s)
    (mounted s) (getUserMedia s) (alerts s) (timers s) (pendingMedia s)
    (pendingBlobs s) (liveTracks s).

Definition set_cameraError (v : option string) (s : State) : State :=
  mkState (stage s) (selectedFileName s) (predictedSpecies s) (confidence s)
    (isCameraOpen s) v (videoRef s) (cameraStream s)
    (mounted s) (getUserMedia s) (alerts s) (timers s) (pendingMedia s)
    (pendingBlobs s) (liveTracks s).

Definition set_videoRef (v : option Video) (s : State) : State :=
  mkState (stage s) (selectedFileName s) (predictedSpecies s) (confidence s)
    (isCameraOpen s) (cameraError s) v (cameraStream s)
    (mounted s) (getUserMedia s) (alerts s) (timers s) (pendingMedia s)
    (pendingBlobs s) (liveTracks s).

Definition set_cameraStream (v : option MediaStream) (s : State) : State :=
  mkState (stage s) (selectedFileName s) (predictedSpecies s) (confidence s)
    (isCameraOpen s) (cameraError s) (videoRef s) v
    (mounted s) (getUserMedia s) (alerts s) (timers s) (pendingMedia s)
    (pendingBlobs s) (liveTracks s).

Definition set_mounted (v : bool) (s : State) : State :=
  mkState (stage s) (selectedFileName s) (predictedSpecies s) (confidence s)
    (isCameraOpen s) (cameraError s) (videoRef s) (cameraStream s)
    v (getUserMedia s) (alerts s) (timers s) (pendingMedia s)
    (pendingBlobs s) (liveTracks s).

Definition set_alerts (v : list string) (s : State) : State :=
  mkState (stage s) (selectedFileName s) (predictedSpecies s) (confidence s)
    (isCameraOpen s) (cameraError s) (videoRef s) (cameraStream s)
    (mounted s) (getUserMedia s) v (timers s) (pendingMedia s)
    (pendingBlobs s) (liveTracks s).

Definition set_timers (v : list Timer) (s : State) : State :=
  mkState (stage s) (selectedFileName s) (predictedSpecies s) (confidence s)
    (isCameraOpen s) (cameraError s) (videoRef s) (cameraStream s)
    (mounted s) (getUserMedia s) (alerts s) v (pendingMedia s)
    (pendingBlobs s) (liveTracks s).

Definition set_pendingMedia (v : list Attempt) (s : State) : State :=
  mkState (stage s) (selectedFileName s) (predictedSpecies s) (confidence s)
    (isCameraOpen s) (cameraError s) (videoRef s) (cameraStream s)
    (mounted s) (getUserMedia s) (alerts s) (timers s) v
    (pendingBlobs s) (liveTracks s).

Definition set_pendingBlobs (v : nat) (s : State) : State :=
  mkState (stage s) (selectedFileName s) (predictedSpecies s) (confidence s)
    (isCameraOpen s) (cameraError s) (videoRef s) (cameraStream s)
    (mounted s) (getUserMedia s) (alerts s) (timers s) (pendingMedia s)
    v (liveTracks s).

Definition set_liveTracks (v : list Track) (s : State) : State :=
  mkState (stage s) (selectedFileName s) (predictedSpecies s) (confidence s)
    (isCameraOpen s) (cameraError s) (videoRef s) (cameraStream s)
    (mounted s) (getUserMedia s) (alerts s) (timers s) (pendingMedia s)
    (pendingBlobs s) v.

(** The component as it is mounted: the initial values of the refs, the
    overlay not rendered, nothing pending. *)
Definition init (supported : bool) : State :=
  mkState idle None None None false None None None
    true supported [] [] [] 0%nat [].

(** *** Browser primitives *)

Definition alert (msg : string) (s : State) : State :=
  set_alerts (alerts s ++ [msg]) s.

Definition setTimeout (t : Timer) (s : State) : State :=
  set_timers (timers s ++ [t]) s.

Definition requestMedia (a : Attempt) (s : State) : State :=
  set_pendingMedia (pendingMedia s ++ [a]) s.

Definition isStopped (ts : list Track) (t : Track) : bool :=
  existsb (Nat.eqb t) ts.

(** [ts.forEach((t) => t.stop())] *)
Definition stopTracks (ts : list Track) (s : State) : State :=
  set_liveTracks (filter (fun t => negb (isStopped ts t)) (liveTracks s)) s.

(** The tracks of a stream are live from the moment the promise
    resolves with it. *)
Definition acquire (stream : option MediaStream) (s : State) : State :=
  match stream with
  | Some st => set_liveTracks (liveTracks s ++ getTracks st) s
  | None => s
  end.

(** Vue renders after a handler has run (and at [await nextTick()]):
    the overlay, with its [<video>], exists exactly while
    [isCameraOpen] holds. *)
Definition flush (s : State) : State :=
  if isCameraOpen s then
    match videoRef s with
    | Some _ => s
    | None => set_videoRef (Some (mkVideo None)) s
    end
  else set_videoRef None s.

(** *** The functions of the script block *)

Definition resetResults (s : State) : State :=
  set_confidence None (set_predictedSpecies None s).

(** The callback passed to [setTimeout] in [runClassification]. *)
Definition classificationDone (s : State) : State :=
  set_confidence (Some 99.2%Q)
    (set_predictedSpecies (Some "Banaba (Lagerstroemia speciosa)")
       (set_stage done s)).

Definition runTimer (t : Timer) (s : State) : State :=
  match t with
  | ClassificationDone => classificationDone s
  end.

Definition runClassification (s : State) : State :=
  setTimeout ClassificationDone (set_stage processing (resetResults s)).

Definition handleFiles (files : FileList) (s : State) : State :=
  match files with
  | None | Some [] => s
  | Some (file :: _) =>
      if negb (JS.startsWith (type file) "image/") then
        alert "Please upload a plant leaf image (JPG/PNG/TIFF)." s
      else
        runClassification (set_selectedFileName (Some (name file)) s)
  end.

Definition onFileChange (files : FileList) (s : State) : State :=
  handleFiles files s.

Definition nameIs (err : DOMError) (n : string) : bool :=
  String.eqb (err_name err) n.

(** The [catch (err: any)] block of [startCamera]. *)
Definition cameraErrorMessage (err : DOMError) : string :=
  if nameIs err "NotAllowedError" || nameIs err "PermissionDeniedError" then
    "Camera permission denied. Please allow camera access in your browser settings."
  else if nameIs err "NotFoundError" || nameIs err "DevicesNotFoundError" then
    "No camera found on this device."
  else if nameIs err "NotReadableError" || nameIs err "TrackStartError" then
    "Camera is already in use by another application."
  else
    "Unable to access camera: "
      ++ JS.orElse (err_message err) "Unknown error" ++ ".".

(** [startCamera] up to its first [await]: the first [getUserMedia]
    call is made and the function is suspended on its promise. *)
Definition startCamera (s : State) : State :=
  let s := set_cameraError None s in
  if negb (getUserMedia s) then
    set_cameraError (Some "Camera not supported in this browser.") s
  else requestMedia Ideal s.

(** [startCamera] from [if (!stream)] on.  What follows the assignment
    of [srcObject] (waiting for [loadedmetadata], [video.play()]) only
    touches the playback of the element. *)
Definition withStream (stream : option MediaStream) (s : State) : State :=
  match stream with
  | None =>
      set_cameraError
        (Some "Could not access camera. Please check browser permissions.") s
  | Some st =>
      let s := set_cameraStream (Some st) s in
      match videoRef s with
      | Some _ => set_videoRef (Some (mkVideo (Some st))) s
      | None => s
      end
  end.

(** [startCamera] resumed when the promise of attempt [a] settles: a
    stream ends the chain, a rejection of one of the first two calls is
    caught by the inner [catch] that makes the next call, a rejection
    of the last call reaches the outer [catch]. *)
Definition resumeCamera (a : Attempt) (r : Settled) (s : State) : State :=
  match r with
  | Resolved stream => withStream stream (acquire stream s)
  | Rejected err =>
      match a with
      | Ideal => requestMedia Relaxed s
      | Relaxed => requestMedia AnyCamera s
      | AnyCamera => set_cameraError (Some (cameraErrorMessage err)) s
      end
  end.

Definition stopCamera (s : State) : State :=
  let s :=
    match cameraStream s with
    | Some st => set_cameraStream None (stopTracks (getTracks st) s)
    | None => s
    end in
  match videoRef s with
  | Some _ => set_videoRef (Some (mkVideo None)) s
  | None => s
  end.

Definition openCamera (s : State) : State :=
  startCamera (flush (set_isCameraOpen true s)).

Definition closeCamera (s : State) : State :=
  set_isCameraOpen false (stopCamera s).

(** [captureFromCamera] up to [canvas.toBlob]: the size of the current
    frame and whether a 2d context could be had come from the
    browser. *)
Definition captureFromCamera (videoWidth videoHeight : Z) (context2d : bool)
    (s : State) : State :=
  match videoRef s with
  | None => s
  | Some _ =>
      if (videoWidth =? 0) || (videoHeight =? 0) then s
      else if negb context2d then s
      else set_pendingBlobs (S (pendingBlobs s)) s
  end.

Definition capturedFile : File := mkFile "captured-leaf.jpg" "image/jpeg" "".

(** The callback passed to [canvas.toBlob]. *)
Definition blobEncoded (blob : bool) (s : State) : State :=
  if negb blob then s
  else closeCamera (handleFiles (Some [capturedFile]) s).

(** [onBeforeUnmount]; the component is then gone and its template
    refs are cleared. *)
Definition unmount (s : State) : State :=
  set_mounted false (set_videoRef None (stopCamera s)).

(** The four cases of the [catch (err: any)] block, by [err.name]. *)
Inductive ErrorCategory : Type :=
| PermissionDenied
| NoDeviceFound
| DeviceBusy
| OtherError.

Definition errorCategory (err : DOMError) : ErrorCategory :=
  if nameIs err "NotAllowedError" || nameIs err "PermissionDeniedError" then
    PermissionDenied
  else if nameIs err "NotFoundError" || nameIs err "DevicesNotFoundError" then
    NoDeviceFound
  else if nameIs err "NotReadableError" || nameIs err "TrackStartError" then
    DeviceBusy
  else OtherError.

(** The call that follows a rejected one in the fallback chain. *)
Definition nextAttempt (a : Attempt) : option Attempt :=
  match a with
  | Ideal => Some Relaxed
  | Relaxed => Some AnyCamera
  | AnyCamera => None
  end.

(** *** What the template shows of the camera

    The overlay is under [v-if="isCameraOpen"]; inside it, the error
    line is under [v-if="cameraError"] (an empty string is falsy). *)
Inductive Overlay : Type :=
| OverlayHidden
| OverlayShown (errorLine : option string).

Definition overlay (s : State) : Overlay :=
  if isCameraOpen s then
    OverlayShown
      (match cameraError s with
       | Some EmptyString | None => None
       | Some msg => Some msg
       end)
  else OverlayHidden.

(** *** The events of the view *)
Inductive Event : Type :=
| FileChange (files : FileList)
| ClickOpenCamera
| ClickCancel
| ClickCapture (videoWidth videoHeight : Z) (context2d : bool)
| BlobEncoded (blob : bool)
| MediaSettled (n : nat) (r : Settled)
| TimerFired
| Unmount.

Definition guard (b : bool) (s : State) : option State :=
  if b then Some s else None.

(** One event.  [None]: the event cannot happen in this state (a click
    on something that is not rendered, a callback that is not
    pending).  Callbacks that are pending when the component is
    unmounted still run. *)
Definition step (e : Event) (s : State) : option State :=
  match e with
  | FileChange files =>
      guard (mounted s) (flush (onFileChange files s))
  | ClickOpenCamera =>
      guard (mounted s) (flush (openCamera s))
  | ClickCancel =>
      guard (mounted s && isCameraOpen s) (flush (closeCamera s))
  | ClickCapture w h c =>
      guard (mounted s && isCameraOpen s) (flush (captureFromCamera w h c s))
  | BlobEncoded blob =>
      match pendingBlobs s with
      | O => None
      | S n => Some (flush (blobEncoded blob (set_pendingBlobs n s)))
      end
  | MediaSettled n r =>
      match nth_error (pendingMedia s) n with
      | None => None
      | Some a =>
          let rest := (firstn n (pendingMedia s) ++ skipn (S n) (pendingMedia s))%list in
          Some (flush (resumeCamera a r (set_pendingMedia rest s)))
      end
  | TimerFired =>
      match timers s with
      | [] => None
      | t :: rest => Some (flush (runTimer t (set_timers rest s)))
      end
  | Unmount =>
      guard (mounted s) (unmount s)
  end.

Fixpoint run (es : list Event) (s : State) : option State :=
  match es with
  | [] => Some s
  | e :: es' =>
      match step e s with
      | Some s' => run es' s'
      | None => None
      end
  end.

(** The values [stage] takes along a run, the starting one first. *)
Fixpoint stages (es : list Event) (s : State) : list Stage :=
  stage s ::
  match es with
  | [] => []
  | e :: es' =>
      match step e s with
      | Some s' => stages es' s'
      | None => []
      end
  end.

(** *** What the template shows of the result

    The results panel: under [v-if="stage !== 'done'"] one of three texts,
    chosen by [!selectedFileName] (an empty name is falsy) and by the
    stage; under [v-else] the prediction with the sample name, when there
    is one, and [confidence?.toFixed(1)] followed by a percent sign. *)
Inductive Panel : Type :=
| AskForImage
| Classifying (file : string)
| ReadyToClassify
| Prediction (species : option string) (sample : option string)
    (score : option string).

Definition truthy (x : option string) : option string :=
  match x with
  | Some EmptyString | None => None
  | Some v => Some v
  end.

Definition panel (s : State) : Panel :=
  match stage s with
  | done =>
      Prediction (predictedSpecies s) (truthy (selectedFileName s))
        (option_map (fun c => JS.toFixed1 c ++ "%") (confidence s))
  | _ =>
      match truthy (selectedFileName s) with
      | None => AskForImage
      | Some file =>
          match stage s with
          | processing => Classifying file
          | _ => ReadyToClassify
          end
      end
  end.

(** The fields the classification writes. *)
Definition core (s : State)
    : Stage * option string * option string * option Q * list Timer :=
  (stage s, selectedFileName s, predictedSpecies s, confidence s, timers s).

(** The stage tells what the other fields of the classification hold:
    nothing before the first image, a pending timer and no result while
    processing, the result once done. *)
Definition consistent (s : State) : Prop :=
  match stage s with
  | idle =>
      selectedFileName s = None /\ predictedSpecies s = None /\
      confidence s = None /\ timers s = []
  | processing =>
      selectedFileName s <> None /\ predictedSpecies s = None /\
      confidence s = None /\ timers s <> []
  | done =>
      selectedFileName s <> None /\
      predictedSpecies s = Some "Banaba (Lagerstroemia speciosa)" /\
      confidence s = Some 99.2%Q
  end.

(** The fields the camera functions write, and the capability they
    read. *)
Definition camera (s : State)
    : bool * list Attempt * option MediaStream * list Track * bool
      * option string :=
  (getUserMedia s, pendingMedia s, cameraStream s, liveTracks s,
   isCameraOpen s, cameraError s).

(** The camera of a browser without [getUserMedia]: nothing requested,
    nothing stored, nothing live, and the one message whenever the
    overlay is open. *)
Definition cameraUnavailable (s : State) : Prop :=
  getUserMedia s = false /\
  pendingMedia s = [] /\
  cameraStream s = None /\
  liveTracks s = [] /\
  (cameraError s = None \/
   cameraError s = Some "Camera not supported in this browser.") /\
  (isCameraOpen s = true ->
   cameraError s = Some "Camera not supported in this browser.").

(** The view with the overlay open, a stream of two tracks stored and
    shown, and the encoding of a captured frame under way. *)
Definition capturing : State :=
  mkState idle None None None true None
    (Some (mkVideo (Some (mkStream [1%nat; 2%nat]))))
    (Some (mkStream [1%nat; 2%nat]))
    true true [] [] [] 1%nat [1%nat; 2%nat].

(** A session with the camera: open, the first call is rejected, the
    second resolves with a stream of two tracks, a frame is captured and
    encoded, the classification ends. *)
Definition cameraSession : list Event :=
  [ClickOpenCamera;
   MediaSettled 0 (Rejected (mkError "OverconstrainedError" ""));
   MediaSettled 0 (Resolved (Some (mkStream [1%nat; 2%nat])));
   ClickCapture 640 480 true;
   BlobEncoded true;
   TimerFired].

(** A view that is gone, with no captured frame being encoded and with
    track [t] live. *)
Definition abandoned (t : Track) (s : State) : Prop :=
  mounted s = false /\ pendingBlobs s = 0%nat /\ In t (liveTracks s).

(** The overlay just opened, the first [getUserMedia] call pending. *)
Definition acquiring : State := flush (openCamera (init true)).

End Live.

(** ** The benchmark view, [PipelineVisualizer.vue] *)
Module Benchmark.
Import Dom.

Inductive Stage : Type := idle | uploading | extracting | optimizing | done.

Inductive DatasetKey : Type := swedish | flavia | philippine.

Definition DatasetKey_eqb (a b : DatasetKey) : bool :=
  match a, b with
  | swedish, swedish | flavia, flavia | philippine, philippine => true
  | _, _ => false
  end.

Record Dataset : Type := mkDataset {
  key : DatasetKey;
  label : string;
  subtitle : string;
  samples : Z;
  classes : Z;
  mockAccuracy : Q;
  mockSelectedFeatures : Z
}.

Definition swedishLeaf : Dataset :=
  mkDataset swedish "Swedish Leaf" "Automatic Swedish leaf dataset"
    1125 15 96.8%Q 45.

Definition flaviaLeaf : Dataset :=
  mkDataset flavia "Flavia" "Flavia leaf dataset" 1907 32 95.1%Q 52.

Definition philippineMedicinal : Dataset :=
  mkDataset philippine "Philippine Medicinal" "Local medicinal plant leaves"
    1500 25 94.3%Q 40.

Definition DATASETS : list Dataset :=
  [swedishLeaf; flaviaLeaf; philippineMedicinal].

(** [Record<DatasetKey, A>]: an object with exactly the three keys. *)
Record ByKey (A : Type) : Type := mkByKey {
  at_swedish : A;
  at_flavia : A;
  at_philippine : A
}.
Arguments mkByKey {A}.
Arguments at_swedish {A}.
Arguments at_flavia {A}.
Arguments at_philippine {A}.

(** [m[k]] *)
Definition get {A : Type} (k : DatasetKey) (m : ByKey A) : A :=
  match k with
  | swedish => at_swedish m
  | flavia => at_flavia m
  | philippine => at_philippine m
  end.

(** [m[k] = v] *)
Definition put {A : Type} (k : DatasetKey) (v : A) (m : ByKey A) : ByKey A :=
  match k with
  | swedish => mkByKey v (at_flavia m) (at_philippine m)
  | flavia => mkByKey (at_swedish m) v (at_philippine m)
  | philippine => mkByKey (at_swedish m) (at_flavia m) v
  end.

Module RunSummary.
Record t : Type := mk {
  id : Z;
  datasetLabel : string;
  sampleName : option string;
  species : option string;
  confidence : option Q;
  before : option Z;
  after : option Z
}.
End RunSummary.

(** The three callbacks [runMockPipeline] passes to [setTimeout], from
    the outermost (500 ms) to the innermost (900 ms). *)
Inductive Timer : Type := UploadDone | ExtractDone | OptimizeDone.

Record State : Type := mkState {
  (* the refs of the component *)
  isDatasetDragging : bool;
  selectedDatasetKey : DatasetKey;
  selectedFileName : option string;
  datasetFileNames : ByKey (option string);
  datasetSampleNames : ByKey (list string);
  stage : Stage;
  predictedSpecies : option string;
  confidence : option Q;
  featureBefore : option Z;
  featureAfter : option Z;
  runCounter : Z;
  previousRuns : list RunSummary.t;
  compareBaseline : bool;
  optimizationProgress : Q;
  (* the browser *)
  now : Z;                     (* the clock in ms, [performance.now()] *)
  timers : list (Z * Timer);   (* pending [setTimeout] callbacks with their
                                  due times, the next one first *)
  frames : list Z              (* pending [requestAnimationFrame(step)]
                                  callbacks, by the [start] each closes over *)
}.

Definition set_isDatasetDragging (v : bool) (s : State) : State :=
  mkState v (selectedDatasetKey s) (selectedFileName s)
    (datasetFileNames s) (datasetSampleNames s) (stage s)
    (predictedSpecies s) (confidence s) (featureBefore s) (featureAfter s)
    (runCounter s) (previousRuns s) (compareBaseline s)
    (optimizationProgress s) (now s) (timers s) (frames s).

Definition set_selectedDatasetKey (v : DatasetKey) (s : State) : State :=
  mkState (isDatasetDragging s) v (selectedFileName s)
    (datasetFileNames s) (datasetSampleNames s) (stage s)
    (predictedSpecies s) (confidence s) (featureBefore s) (featureAfter s)
    (runCounter s) (previousRuns s) (compareBaseline s)
    (optimizationProgress s) (now s) (timers s) (frames s).

Definition set_selectedFileName (v : option string) (s : State) : State :=
  mkState (isDatasetDragging s) (selectedDatasetKey s) v
    (datasetFileNames s) (datasetSampleNames s) (stage s)
    (predictedSpecies s) (confidence s) (featureBefore s) (featureAfter s)
    (runCounter s) (previousRuns s) (compareBaseline s)
    (optimizationProgress s) (now s) (timers s) (frames s).

Definition set_datasetFileNames (v : ByKey (option string)) (s : State) : State :=
  mkState (isDatasetDragging s) (selectedDatasetKey s)
    (selectedFileName s) v (datasetSampleNames s) (stage s)
    (predictedSpecies s) (confidence s) (featureBefore s) (featureAfter s)
    (runCounter s) (previousRuns s) (compareBaseline s)
    (optimizationProgress s) (now s) (timers s) (frames s).

Definition set_datasetSampleNames (v : ByKey (list string)) (s : State) : State :=
  mkState (isDatasetDragging s) (selectedDatasetKey s)
    (selectedFileName s) (datasetFileNames s) v (stage s)
    (predictedSpecies s) (confidence s) (featureBefore s) (featureAfter s)
    (runCounter s) (previousRuns s) (compareBaseline s)
    (optimizationProgress s) (now s) (timers s) (frames s).

Definition set_stage (v : Stage) (s : State) : State :=
  mkState (isDatasetDragging s) (selectedDatasetKey s)
    (selectedFileName s) (datasetFileNames s) (datasetSampleNames s) v
    (predictedSpecies s) (confidence s) (featureBefore s) (featureAfter s)
    (runCounter s) (previousRuns s) (compareBaseline s)
    (optimizationProgress s) (now s) (timers s) (frames s).

Definition set_predictedSpecies (v : option string) (s : State) : State :=
  mkState (isDatasetDragging s) (selectedDatasetKey s)
    (selectedFileName s) (datasetFileNames s) (datasetSampleNames s)
    (stage s) v (confidence s) (featureBefore s) (featureAfter s)
    (runCounter s) (previousRuns s) (compareBaseline s)
    (optimizationProgress s) (now s) (timers s) (frames s).

Definition set_confidence (v : option Q) (s : State) : State :=
  mkState (isDatasetDragging s) (selectedDatasetKey s)
    (selectedFileName s) (datasetFileNames s) (datasetSampleNames s)
    (stage s) (predictedSpecies s) v (featureBefore s) (featureAfter s)
    (runCounter s) (previousRuns s) (compareBaseline s)
    (optimizationProgress s) (now s) (timers s) (frames s).

Definition set_featureBefore (v : option Z) (s : State) : State :=
  mkState (isDatasetDragging s) (selectedDatasetKey s)
    (selectedFileName s) (datasetFileNames s) (datasetSampleNames s)
    (stage s) (predictedSpecies s) (confidence s) v (featureAfter s)
    (runCounter s) (previousRuns s) (compareBaseline s)
    (optimizationProgress s) (now s) (timers s) (frames s).

Definition set_featureAfter (v : option Z) (s : State) : State :=
  mkState (isDatasetDragging s) (selectedDatasetKey s)
    (selectedFileName s) (datasetFileNames s) (datasetSampleNames s)
    (stage s) (predictedSpecies s) (confidence s) (featureBefore s) v
    (runCounter s) (previousRuns s) (compareBaseline s)
    (optimizationProgress s) (now s) (timers s) (frames s).

Definition set_runCounter (v : Z) (s : State) : State :=
  mkState (isDatasetDragging s) (selectedDatasetKey s)
    (selectedFileName s) (datasetFileNames s) (datasetSampleNames s)
    (stage s) (predictedSpecies s) (confidence s) (featureBefore s)
    (featureAfter s) v (previousRuns s) (compareBaseline s)
    (optimizationProgress s) (now s) (timers s) (frames s).

Definition set_previousRuns (v : list RunSummary.t) (s : State) : State :=
  mkState (isDatasetDragging s) (selectedDatasetKey s)
    (selectedFileName s) (datasetFileNames s) (datasetSampleNames s)
    (stage s) (predictedSpecies s) (confidence s) (featureBefore s)
    (featureAfter s) (runCounter s) v (compareBaseline s)
    (optimizationProgress s) (now s) (timers s) (frames s).

Definition set_compareBaseline (v : bool) (s : State) : State :=
  mkState (isDatasetDragging s) (selectedDatasetKey s)
    (selectedFileName s) (datasetFileNames s) (datasetSampleNames s)
    (stage s) (predictedSpecies s) (confidence s) (featureBefore s)
    (featureAfter s) (runCounter s) (previousRuns s) v
    (optimizationProgress s) (now s) (timers s) (frames s).

Definition set_optimizationProgress (v : Q) (s : State) : State :=
  mkState (isDatasetDragging s) (selectedDatasetKey s)
    (selectedFileName s) (datasetFileNames s) (datasetSampleNames s)
    (stage s) (predictedSpecies s) (confidence s) (featureBefore s)
    (featureAfter s) (runCounter s) (previousRuns s) (compareBaseline s) v
    (now s) (timers s) (frames s).

Definition set_now (v : Z) (s : State) : State :=
  mkState (isDatasetDragging s) (selectedDatasetKey s)
    (selectedFileName s) (datasetFileNames s) (datasetSampleNames s)
    (stage s) (predictedSpecies s) (confidence s) (featureBefore s)
    (featureAfter s) (runCounter s) (previousRuns s) (compareBaseline s)
    (optimizationProgress s) v (timers s) (frames s).

Definition set_timers (v : list (Z * Timer)) (s : State) : State :=
  mkState (isDatasetDragging s) (selectedDatasetKey s)
    (selectedFileName s) (datasetFileNames s) (datasetSampleNames s)
    (stage s) (predictedSpecies s) (confidence s) (featureBefore s)
    (featureAfter s) (runCounter s) (previousRuns s) (compareBaseline s)
    (optimizationProgress s) (now s) v (frames s).

Definition set_frames (v : list Z) (s : State) : State :=
  mkState (isDatasetDragging s) (selectedDatasetKey s)
    (selectedFileName s) (datasetFileNames s) (datasetSampleNames s)
    (stage s) (predictedSpecies s) (confidence s) (featureBefore s)
    (featureAfter s) (runCounter s) (previousRuns s) (compareBaseline s)
    (optimizationProgress s) (now s) (timers s) v.

(** The component as it is mounted. *)
Definition init : State :=
  mkState false swedish None
    (mkByKey None None None) (mkByKey [] [] [])
    idle None None None None 0 [] false 0%Q
    0 [] [].

(** *** Browser primitives *)

(** The queue is kept in the order the callbacks will run: by due
    time, and among equal due times in the order of the calls. *)
Fixpoint enqueue (due : Z) (t : Timer) (q : list (Z * Timer))
    : list (Z * Timer) :=
  match q with
  | [] => [(due, t)]
  | (d, t') :: r =>
      if due <? d then (due, t) :: q else (d, t') :: enqueue due t r
  end.

Definition setTimeout (t : Timer) (delay : Z) (s : State) : State :=
  set_timers (enqueue (now s + delay) t (timers s)) s.

Definition requestAnimationFrame (start : Z) (s : State) : State :=
  set_frames (frames s ++ [start])%list s.

(** *** The computed values and functions of the script block *)

Definition processing (s : State) : bool :=
  match stage s with
  | idle | done => false
  | _ => true
  end.

Definition selectedDataset (s : State) : Dataset :=
  match find (fun d => DatasetKey_eqb (key d) (selectedDatasetKey s)) DATASETS with
  | Some d => d
  | None => hd swedishLeaf DATASETS
  end.

Definition formatPathLabel (raw : string) : string :=
  let parts := JS.splitPath raw in
  JS.orElse (last parts "") raw.

Definition inferDatasetKeyFromPath (raw : string) : option DatasetKey :=
  let lower := JS.toLowerCase raw in
  if JS.includes lower "swedish" then Some swedish
  else if JS.includes lower "flavia" then Some flavia
  else if JS.includes lower "philippine" || JS.includes lower "medicinal"
       then Some philippine
  else None.

Definition resetResults (s : State) : State :=
  set_optimizationProgress 0%Q
    (set_featureAfter None
       (set_featureBefore None
          (set_confidence None
             (set_predictedSpecies None s)))).

(** [webkitRelativePath] when it is a non-empty string, the name
    otherwise: the expression [handleDatasetFiles] writes three
    times. *)
Definition rawPath (f : File) : string :=
  if (0 <? String.length (webkitRelativePath f))%nat
  then webkitRelativePath f else name f.

(** The predicate of [fileArray.filter] in [handleDatasetFiles]. *)
Definition isImageFile (f : File) : bool :=
  let mime := JS.toLowerCase (type f) in
  let name := JS.toLowerCase (name f) in
  let isMimeImage := JS.startsWith mime "image/" in
  let isKnownExt :=
    JS.endsWith name ".jpg" || JS.endsWith name ".jpeg" ||
    JS.endsWith name ".png" || JS.endsWith name ".tif" ||
    JS.endsWith name ".tiff" in
  isMimeImage || isKnownExt.

Definition handleDatasetFiles (files : FileList) (s : State) : State :=
  match files with
  | None | Some [] => s
  | Some ((first :: _) as fileArray) =>
      let firstRawPath := rawPath first in
      let inferredKey := inferDatasetKeyFromPath firstRawPath in
      let currentKey :=
        match inferredKey with
        | Some k => k
        | None => selectedDatasetKey s
        end in
      let s :=
        match inferredKey with
        | Some k => set_selectedDatasetKey k s
        | None => s
        end in
      let imageFiles := filter isImageFile fileArray in
      let chosen :=
        if (0 <? List.length imageFiles)%nat then imageFiles else fileArray in
      let samples := firstn 3 chosen in
      let s :=
        set_datasetSampleNames
          (put currentKey
             (map (fun f => formatPathLabel (rawPath f)) samples)
             (datasetSampleNames s)) s in
      match samples with
      | first :: _ =>
          set_datasetFileNames
            (put currentKey (Some (formatPathLabel (rawPath first)))
               (datasetFileNames s)) s
      | [] => s
      end
  end.

Definition onDatasetDrop (files : FileList) (s : State) : State :=
  handleDatasetFiles files (set_isDatasetDragging false s).

Definition onDatasetChange (files : FileList) (s : State) : State :=
  handleDatasetFiles files s.

(** The innermost callback of [runMockPipeline]: the mock results and
    the history. *)
Definition optimizeDone (s : State) : State :=
  let s := set_stage done s in
  let s := set_featureBefore (Some 2048) s in
  let ds := selectedDataset s in
  let s :=
    set_predictedSpecies
      (Some (match key ds with
             | swedish => "Quercus robur (English Oak)"
             | flavia => "Acer palmatum (Japanese Maple)"
             | philippine => "Vitex negundo (Lagundi)"
             end)) s in
  let s := set_confidence (Some (mockAccuracy ds)) s in
  let s := set_featureAfter (Some (mockSelectedFeatures ds)) s in
  let s := set_runCounter (runCounter s + 1) s in
  let id := runCounter s in
  let summary :=
    RunSummary.mk id (label ds) (selectedFileName s) (predictedSpecies s)
      (confidence s) (featureBefore s) (featureAfter s) in
  set_previousRuns (firstn 4 (summary :: previousRuns s)) s.

(** The function [step] of the progress animation, called by the
    browser with the time of the frame. *)
Definition animate (start : Z) (time : Z) (s : State) : State :=
  let duration := 5000 in
  let elapsed := time - start in
  let s :=
    set_optimizationProgress
      (Qmin 1 (inject_Z elapsed / inject_Z duration)) s in
  if (elapsed <? duration) &&
     match stage s with optimizing => true | _ => false end
  then requestAnimationFrame start s
  else s.

(** The middle callback: the optimisation stage, its animation and the
    last timer. *)
Definition extractDone (s : State) : State :=
  let s := set_stage optimizing s in
  let s := set_optimizationProgress 0%Q s in
  let start := now s in
  let s := requestAnimationFrame start s in
  setTimeout OptimizeDone 900 s.

(** The outermost callback. *)
Definition uploadDone (s : State) : State :=
  let s := set_stage extracting s in
  setTimeout ExtractDone 1100 s.

Definition runMockPipeline (s : State) : State :=
  let s := set_stage uploading s in
  setTimeout UploadDone 500 s.

Definition runSampleFromDataset (name : string) (s : State) : State :=
  let s := set_selectedFileName (Some (formatPathLabel name)) s in
  let s := resetResults s in
  runMockPipeline s.

Definition runTimer (t : Timer) (s : State) : State :=
  match t with
  | UploadDone => uploadDone s
  | ExtractDone => extractDone s
  | OptimizeDone => optimizeDone s
  end.

Definition stageStep (s : State) : Z :=
  match stage s with
  | uploading => 0
  | extracting => 1
  | optimizing => 2
  | done => 3
  | idle => 0
  end.

(** *** What the template shows

    The parts of the template that display results.  A block under
    [v-if] is an [option] or a [bool]; an interpolation is the value it
    prints; a text written in the template is that text. *)

Record ResultsCard : Type := mkCard {
  shownSpecies : option string;       (* [{{ predictedSpecies }}] *)
  shownSample : option string;        (* [{{ selectedFileName }}] *)
  modelAccuracy : string;             (* the figure under "Model Accuracy" *)
  validatedOn : string;               (* the line under that figure *)
  shownFeatureBefore : option Z;      (* [{{ featureBefore }}] *)
  shownFeatureAfter : option Z;       (* [{{ featureAfter }}] *)
  baselineComparison : bool;          (* the block under [v-if="compareBaseline"] *)
  closingAccuracy : string;           (* [{{ selectedDataset.mockAccuracy.toFixed(1) }}%] *)
  closingLabel : string;              (* [{{ selectedDataset.label }}] *)
  closingFeatures : Z                 (* [{{ selectedDataset.mockSelectedFeatures }}] *)
}.

Record HistoryRow : Type := mkRow {
  rowSpecies : option string;
  rowDataset : string;
  rowSample : option string;
  rowConfidence : option string;      (* [run.confidence?.toFixed(1)], then [%] *)
  rowBefore : option Z;
  rowAfter : option Z
}.

Record View : Type := mkView {
  headerLabel : string;               (* [{{ selectedDataset.label }}] *)
  headerClasses : Z;
  headerSamples : Z;
  stepper : Z;                        (* [stageStep] *)
  simulating : bool;                  (* [processing] *)
  dashOffset : Q;                     (* [100 - 100 * optimizationProgress] *)
  card : option ResultsCard;          (* the [v-else] of [stage !== 'done'] *)
  recentRuns : option (list HistoryRow)  (* [v-if="previousRuns.length > 1"] *)
}.

Definition renderCard (s : State) : ResultsCard :=
  mkCard (predictedSpecies s) (selectedFileName s)
    "95.1%" "Validated on 1,907 images."
    (featureBefore s) (featureAfter s)
    (compareBaseline s)
    (JS.toFixed1 (mockAccuracy (selectedDataset s)) ++ "%")
    (label (selectedDataset s))
    (mockSelectedFeatures (selectedDataset s)).

Definition renderRow (r : RunSummary.t) : HistoryRow :=
  mkRow (RunSummary.species r) (RunSummary.datasetLabel r)
    (RunSummary.sampleName r)
    (option_map (fun c => JS.toFixed1 c ++ "%") (RunSummary.confidence r))
    (RunSummary.before r) (RunSummary.after r).

Definition render (s : State) : View :=
  mkView (label (selectedDataset s)) (classes (selectedDataset s))
    (samples (selectedDataset s))
    (stageStep s) (processing s)
    (100 - 100 * optimizationProgress s)%Q
    (match stage s with
     | done => Some (renderCard s)
     | _ => None
     end)
    (if (1 <? List.length (previousRuns s))%nat
     then Some (map renderRow (previousRuns s)) else None).

(** *** The events of the view *)
Inductive Event : Type :=
| ClickDataset (k : DatasetKey)
| DragOver
| DragLeave
| Drop (files : FileList)
| Change (files : FileList)
| ClickSample (name : string)
| ClickCompare
| Elapse (d : Z)
| TimerFired
| AnimationFrame.

Definition guard (b : bool) (s : State) : option State :=
  if b then Some s else None.

(** A sample button exists for each name stored for the selected
    dataset. *)
Definition sampleShown (name : string) (s : State) : bool :=
  existsb (String.eqb name) (get (selectedDatasetKey s) (datasetSampleNames s)).

(** Time may pass up to the moment the next timer is due. *)
Definition mayElapse (d : Z) (s : State) : bool :=
  (0 <=? d) &&
  match timers s with
  | [] => true
  | (due, _) :: _ => now s + d <=? due
  end.

(** One event.  [None]: the event cannot happen in this state.  The
    timer that fires is the first of the queue, at its due time; a
    frame calls every animation callback that is pending, with the
    time of the frame. *)
Definition step (e : Event) (s : State) : option State :=
  match e with
  | ClickDataset k => Some (set_selectedDatasetKey k s)
  | DragOver => Some (set_isDatasetDragging true s)
  | DragLeave => Some (set_isDatasetDragging false s)
  | Drop files => Some (onDatasetDrop files s)
  | Change files => Some (onDatasetChange files s)
  | ClickSample name =>
      guard (sampleShown name s) (runSampleFromDataset name s)
  | ClickCompare =>
      Some (set_compareBaseline (negb (compareBaseline s)) s)
  | Elapse d =>
      guard (mayElapse d s) (set_now (now s + d) s)
  | TimerFired =>
      match timers s with
      | [] => None
      | (due, t) :: rest =>
          Some (runTimer t (set_now (Z.max (now s) due) (set_timers rest s)))
      end
  | AnimationFrame =>
      match frames s with
      | [] => None
      | starts =>
          Some (fold_left (fun st start => animate start (now st) st)
                  starts (set_frames [] s))
      end
  end.

Fixpoint run (es : list Event) (s : State) : option State :=
  match es with
  | [] => Some s
  | e :: es' =>
      match step e s with
      | Some s' => run es' s'
      | None => None
      end
  end.

(** The values [stage] takes along a run, the starting one first. *)
Fixpoint stages (es : list Event) (s : State) : list Stage :=
  stage s ::
  match es with
  | [] => []
  | e :: es' =>
      match step e s with
      | Some s' => stages es' s'
      | None => []
      end
  end.

(** What a completed run has published: the result fields as its last
    callback leaves them, under the number of the run. *)
Definition publishedSummary (s : State) : RunSummary.t :=
  RunSummary.mk (runCounter s) (label (selectedDataset s))
    (selectedFileName s) (predictedSpecies s)
    (confidence s) (featureBefore s) (featureAfter s).

(** The event is the firing of the last callback of a run. *)
Definition completesRun (e : Event) (s : State) : bool :=
  match e, timers s with
  | TimerFired, (_, OptimizeDone) :: _ => true
  | _, _ => false
  end.

(** The summaries of the runs completed along a run of events, the latest
    first, on top of those in [earlier]. *)
Fixpoint completed (es : list Event) (s : State) (earlier : list RunSummary.t)
    : list RunSummary.t :=
  match es with
  | [] => earlier
  | e :: es' =>
      match step e s with
      | None => earlier
      | Some s' =>
          completed es' s'
            (if completesRun e s then publishedSummary s' :: earlier
             else earlier)
      end
  end.

(** *** Notions the properties are stated with *)

Definition Stage_eqb (a b : Stage) : bool :=
  match a, b with
  | idle, idle | uploading, uploading | extracting, extracting
  | optimizing, optimizing | done, done => true
  | _, _ => false
  end.

(** The order of the type [Stage] from [uploading] on. *)
Definition follows (a b : Stage) : bool :=
  match a, b with
  | uploading, extracting | extracting, optimizing | optimizing, done => true
  | _, _ => false
  end.

(** A sequence of stage values that only ever stays or moves to the next
    stage. *)
Fixpoint linear (l : list Stage) : bool :=
  match l with
  | a :: (b :: _) as rest => (Stage_eqb a b || follows a b) && linear rest
  | _ => true
  end.

(** The stage a run is in after [n] of its timers have fired. *)
Definition stageAfter (n : nat) : Stage :=
  nth n [uploading; extracting; optimizing; done] done.

Definition isClickSample (e : Event) : bool :=
  match e with
  | ClickSample _ => true
  | _ => false
  end.

Definition isTimerFired (e : Event) : bool :=
  match e with
  | TimerFired => true
  | _ => false
  end.

(** A run that is alone in the view: besides its stage, the one timer it
    has pending, none once it is done. *)
Definition alone (s : State) : Prop :=
  match stage s with
  | uploading => exists due, timers s = [(due, UploadDone)]
  | extracting => exists due, timers s = [(due, ExtractDone)]
  | optimizing => exists due, timers s = [(due, OptimizeDone)]
  | done => timers s = []
  | idle => False
  end.

(** The view with the comparison block shown or hidden. *)
Definition withComparison (b : bool) (v : View) : View :=
  mkView (headerLabel v) (headerClasses v) (headerSamples v)
    (stepper v) (simulating v) (dashOffset v)
    (option_map
       (fun c =>
          mkCard (shownSpecies c) (shownSample c) (modelAccuracy c)
            (validatedOn c) (shownFeatureBefore c) (shownFeatureAfter c)
            b (closingAccuracy c) (closingLabel c) (closingFeatures c))
       (card v))
    (recentRuns v).

(** The key as the source writes it. *)
Definition keyString (k : DatasetKey) : string :=
  match k with
  | swedish => "swedish"
  | flavia => "flavia"
  | philippine => "philippine"
  end.

(** The words [inferDatasetKeyFromPath] looks for under each key. *)
Definition keywords (k : DatasetKey) : list string :=
  match k with
  | swedish => ["swedish"]
  | flavia => ["flavia"]
  | philippine => ["philippine"; "medicinal"]
  end.

(** A lower-cased path contains one of the words of [k]. *)
Definition mentions (lower : string) (k : DatasetKey) : bool :=
  existsb (JS.includes lower) (keywords k).

(** The files [handleDatasetFiles] takes its samples from. *)
Definition chosenFiles (files : list File) : list File :=
  if existsb isImageFile files then filter isImageFile files else files.

(** The extensions [isImageFile] knows. *)
Definition knownExtensions : list string :=
  [".jpg"; ".jpeg"; ".png"; ".tif"; ".tiff"].

(** The dataset the samples of a folder are stored for: the inferred
    one, the selected one when none is inferred. *)
Definition targetKey (first : File) (s : State) : DatasetKey :=
  match inferDatasetKeyFromPath (rawPath first) with
  | Some k => k
  | None => selectedDatasetKey s
  end.

(** *** Sample inputs *)

(** A folder with one image. *)
Definition oneLeaf : list File :=
  [mkFile "leaf_01.jpg" "image/jpeg" "leaves/leaf_01.jpg"].

(** The view with that folder attached. *)
Definition attached : State := onDatasetChange (Some oneLeaf) init.

(** Six runs of the same sample, one after the other. *)
Definition sixRuns : list Event :=
  Change (Some oneLeaf) ::
  concat (repeat [ClickSample "leaf_01.jpg"; TimerFired; TimerFired; TimerFired] 6).

(** What happens during one run that nothing interrupts: time passes,
    the switch and a dataset button are clicked, a frame is drawn. *)
Definition quietRun : list Event :=
  [Elapse 200; TimerFired; ClickCompare; TimerFired;
   AnimationFrame; Elapse 100; TimerFired; ClickDataset flavia].

(** A file of the folder [leaves] whose name is [leaf] and a backslash,
    a name a file can have where the backslash is no separator. *)
Definition trailingFile : File :=
  mkFile ("leaf" ++ String JS.backslash "") "image/png"
    ("leaves/leaf" ++ String JS.backslash "").

(** A folder [leaves] with a text file and a sub-folder [Flavia]. *)
Definition mixedFolder : list File :=
  [mkFile "readme.txt" "text/plain" "leaves/readme.txt";
   mkFile "001.jpg" "image/jpeg" "leaves/Flavia/001.jpg"].

(** *** More of what the template shows

    The text under [v-if="stage !== 'done'"] in the results card, chosen by
    [!selectedFileName] (an empty name is falsy) and by [processing]. *)
Inductive Placeholder : Type :=
| AskForLeaf
| ProcessingFile (file : string)
| ReadyForNext.

Definition placeholder (s : State) : option Placeholder :=
  match stage s with
  | done => None
  | _ =>
      Some (match selectedFileName s with
            | None | Some EmptyString => AskForLeaf
            | Some file =>
                if processing s then ProcessingFile file else ReadyForNext
            end)
  end.




(** [n] numbers going down by one from [c]. *)
Definition idsFrom (c : Z) (n : nat) : list Z :=
  map (fun i => c - Z.of_nat i) (seq 0 n).

(** The animation callback with this [start] asks for another frame at
    time [time] in stage [st]. *)
Definition keepsAnimating (st : Stage) (time start : Z) : bool :=
  (time - start <? 5000) &&
  match st with optimizing => true | _ => false end.

(** Every stored sample name is its own label. *)
Definition namesAreLabels (s : State) : Prop :=
  forall k name, In name (get k (datasetSampleNames s)) ->
                 formatPathLabel name = name.

(** The stage is idle exactly until the first sample is clicked. *)
Definition started (s : State) : Prop :=
  (stage s = idle -> selectedFileName s = None /\ timers s = []) /\
  (stage s <> idle -> selectedFileName s <> None).

(** The history rows are numbered down from the run counter. *)
Definition numbered (s : State) : Prop :=
  map RunSummary.id (previousRuns s)
  = idsFrom (runCounter s) (List.length (previousRuns s)) /\
  List.length (previousRuns s) = Nat.min 4 (Z.to_nat (runCounter s)) /\
  0 <= runCounter s.




(** Two runs one after the other, the dataset changed in between. *)
Definition twoRuns : list Event :=
  [Change (Some oneLeaf);
   ClickSample "leaf_01.jpg"; TimerFired; Elapse 300; TimerFired;
   AnimationFrame; Elapse 16; AnimationFrame; TimerFired; AnimationFrame;
   ClickDataset flavia; Drop (Some oneLeaf);
   ClickSample "leaf_01.jpg"; TimerFired; TimerFired; TimerFired].

End Benchmark.

(** ** The shell, [App.vue]

    One ref, [activeTab]; the template mounts the benchmark view under
    [v-if="activeTab === 'benchmark'"] and the live view under [v-else].
    A view that is mounted starts from its initial state; a view that is
    unmounted runs its [onBeforeUnmount] hook and is kept here, detached,
    as the hook left it. *)
Module App.

Inductive TabKey : Type := benchmark | live.

Definition TabKey_eqb (a b : TabKey) : bool :=
  match a, b with
  | benchmark, benchmark | live, live => true
  | _, _ => false
  end.

Record Tab : Type := mkTab {
  key : TabKey;
  label : string;
  subtitle : string
}.

Definition tabs : list Tab :=
  [mkTab benchmark "Benchmark & Training"
     "Dataset-level evaluation, optimization loop, and feature reduction";
   mkTab live "Live Identification"
     "Single-leaf prediction using pre-optimized feature mask"].

(** The component that is mounted, with its state. *)
Inductive Mounted : Type :=
| BenchmarkTraining (s : Benchmark.State)
| LiveIdentification (s : Live.State).

Record State : Type := mkState {
  activeTab : TabKey;
  mountedView : Mounted;
  detached : list Live.State;   (* the live views unmounted so far, latest first *)
  cameraApi : bool               (* the browser has [getUserMedia] *)
}.

Definition init (supported : bool) : State :=
  mkState benchmark (BenchmarkTraining Benchmark.init) [] supported.

(** What the template mounts for a tab. *)
Definition mount (k : TabKey) (supported : bool) : Mounted :=
  match k with
  | benchmark => BenchmarkTraining Benchmark.init
  | live => LiveIdentification (Live.init supported)
  end.

(** [@click="activeTab = tab.key"]: writing the value the ref already
    has renders nothing; another value unmounts the view that is shown
    and mounts the other one. *)
Definition clickTab (k : TabKey) (s : State) : State :=
  if TabKey_eqb k (activeTab s) then s
  else
    mkState k (mount k (cameraApi s))
      (match mountedView s with
       | LiveIdentification l => Live.unmount l :: detached s
       | BenchmarkTraining _ => detached s
       end)
      (cameraApi s).

Inductive Event : Type :=
| ClickTab (k : TabKey)
| InBenchmark (e : Benchmark.Event)
| InLive (e : Live.Event).

(** One event of the application: a click on a tab, or an event of the
    view that is mounted.  The live view is unmounted by a click on the
    other tab only. *)
Definition step (e : Event) (s : State) : option State :=
  match e, mountedView s with
  | ClickTab k, _ => Some (clickTab k s)
  | InBenchmark e', BenchmarkTraining b =>
      option_map
        (fun b' => mkState (activeTab s) (BenchmarkTraining b') (detached s)
                     (cameraApi s))
        (Benchmark.step e' b)
  | InLive Live.Unmount, _ => None
  | InLive e', LiveIdentification l =>
      option_map
        (fun l' => mkState (activeTab s) (LiveIdentification l') (detached s)
                     (cameraApi s))
        (Live.step e' l)
  | _, _ => None
  end.

Fixpoint run (es : list Event) (s : State) : option State :=
  match es with
  | [] => Some s
  | e :: es' =>
      match step e s with
      | Some s' => run es' s'
      | None => None
      end
  end.



Definition isClickTab (e : Event) : bool :=
  match e with
  | ClickTab _ => true
  | _ => false
  end.



End App.

(** * Properties of the string methods *)
Module JSFacts.
Import JS.

Lemma append_assoc (a b c : string) : (a ++ b) ++ c = a ++ (b ++ c).
Proof.
  induction a as [| x a IH]; cbn; [reflexivity | rewrite IH; reflexivity].
Qed.

Lemma append_empty_r (a : string) : a ++ "" = a.
Proof.
  induction a as [| x a IH]; cbn; [reflexivity | rewrite IH; reflexivity].
Qed.

(** [startsWith] finds exactly the prefixes. *)
Lemma startsWith_append (p : string) :
  forall s, startsWith s p = true <-> exists r, s = p ++ r.
Proof.
  induction p as [| b p IH]; intros s.
  - split; [intros _; exists s; reflexivity | intros _; destruct s; reflexivity].
  - destruct s as [| a s]; cbn.
    + split; [discriminate | intros [r Hr]; discriminate].
    + rewrite andb_true_iff, Ascii.eqb_eq, IH. split.
      * intros [-> [r ->]]. exists r. reflexivity.
      * intros [r Hr]. injection Hr as -> ->. split; [reflexivity | eauto].
Qed.

(** [includes] finds exactly the substrings. *)
Lemma includes_append (p : string) :
  forall s, includes s p = true <-> exists a b, s = a ++ p ++ b.
Proof.
  induction s as [| c s IH]; cbn [includes]; rewrite orb_true_iff.
  - split.
    + intros [H | H]; [ | discriminate].
      apply startsWith_append in H as [r ->]. exists "", r. reflexivity.
    + intros [a [b H]]. left. apply startsWith_append.
      destruct a; [exists b; exact H | discriminate].
  - rewrite IH. split.
    + intros [H | [a [b ->]]].
      * apply startsWith_append in H as [r ->]. exists "", r. reflexivity.
      * exists (String c a), b. reflexivity.
    + intros [a [b H]]. destruct a as [| x a].
      * left. apply startsWith_append. exists b. exact H.
      * right. injection H as _ ->. eauto.
Qed.

Lemma includes_trans (s p q : string) :
  includes s p = true -> includes p q = true -> includes s q = true.
Proof.
  rewrite !includes_append.
  intros [a [b ->]] [c [d ->]].
  exists (a ++ c), (d ++ b).
  rewrite !append_assoc. reflexivity.
Qed.

Lemma lowerChar_idempotent (c : ascii) : lowerChar (lowerChar c) = lowerChar c.
Proof.
  destruct c as [[] [] [] [] [] [] [] []]; reflexivity.
Qed.

Lemma toLowerCase_idempotent (s : string) :
  toLowerCase (toLowerCase s) = toLowerCase s.
Proof.
  induction s as [| c s IH]; cbn; [reflexivity | ].
  rewrite lowerChar_idempotent, IH. reflexivity.
Qed.

Lemma splitPath_not_nil (s : string) : splitPath s <> [].
Proof.
  destruct s as [| c s]; cbn; [discriminate | ].
  destruct (isSeparator c); [discriminate | ].
  destruct (splitPath s); discriminate.
Qed.

(** A string without a separator is its only part. *)
Lemma splitPath_no_separator (s : string) :
  hasSeparator s = false -> splitPath s = [s].
Proof.
  induction s as [| c s IH]; cbn; [reflexivity | ].
  intros H. apply orb_false_iff in H as [Hc Hs].
  rewrite Hc, (IH Hs). reflexivity.
Qed.

(** A separator in the string makes a second part. *)
Lemma splitPath_separator (u v : string) (c : ascii) :
  isSeparator c = true ->
  (2 <= List.length (splitPath ((u ++ String c "") ++ v)))%nat.
Proof.
  intros Hc. induction u as [| x u IH]; cbn [append splitPath].
  - rewrite Hc. cbn [List.length].
    pose proof (splitPath_not_nil v).
    destruct (splitPath v); [contradiction | cbn; lia].
  - destruct (isSeparator x); [cbn; lia | ].
    destruct (splitPath ((u ++ String c "") ++ v)); cbn in *; lia.
Qed.

(** A string with a single part is that part. *)
Lemma splitPath_single (s h : string) : splitPath s = [h] -> s = h.
Proof.
  revert h. induction s as [| c s IH]; intros h; cbn [splitPath].
  - intros H. injection H as <-. reflexivity.
  - destruct (isSeparator c).
    + pose proof (splitPath_not_nil s).
      destruct (splitPath s); [contradiction | discriminate].
    + destruct (splitPath s) as [| h0 t] eqn:Hparts; intros H.
      * exfalso. exact (splitPath_not_nil s Hparts).
      * injection H as <- ->. rewrite (IH h0 eq_refl). reflexivity.
Qed.

(** The last part has no separator, and what comes before it in the
    string is nothing or ends with a separator. *)
Lemma splitPath_last (s : string) :
  hasSeparator (last (splitPath s) "") = false /\
  exists before,
    s = before ++ last (splitPath s) "" /\
    (before = "" \/
     exists b c, before = b ++ String c "" /\ isSeparator c = true).
Proof.
  induction s as [| c s IH].
  - split; [reflexivity | ]. exists "". split; [reflexivity | left; reflexivity].
  - destruct IH as [Hsep [before [Hs Hbefore]]].
    cbn [splitPath].
    destruct (isSeparator c) eqn:Hc.
    + assert (Hlast : last ("" :: splitPath s) "" = last (splitPath s) "").
      { pose proof (splitPath_not_nil s).
        destruct (splitPath s); [contradiction | reflexivity]. }
      rewrite Hlast. split; [exact Hsep | ].
      exists (String c before). split.
      * cbn [append]. rewrite <- Hs. reflexivity.
      * right. destruct Hbefore as [-> | [b [c' [-> Hc']]]].
        -- exists "", c. split; [reflexivity | exact Hc].
        -- exists (String c b), c'. split; [reflexivity | exact Hc'].
    + destruct (splitPath s) as [| h [| h' t]] eqn:Hparts.
      * exfalso. exact (splitPath_not_nil s Hparts).
      * apply splitPath_single in Hparts. subst h.
        cbn [last] in *. split.
        -- cbn [hasSeparator]. rewrite Hc. exact Hsep.
        -- exists "". split; [reflexivity | left; reflexivity].
      * change (last (String c h :: h' :: t) "") with (last (h :: h' :: t) "").
        split; [exact Hsep | ].
        exists (String c before). split.
        -- cbn [append]. rewrite <- Hs. reflexivity.
        -- right. destruct Hbefore as [-> | [b [c' [-> Hc']]]].
           ++ exfalso. cbn [append] in Hs.
              rewrite (splitPath_no_separator s) in Hparts;
                [discriminate | rewrite Hs; exact Hsep].
           ++ exists (String c b), c'. split; [reflexivity | exact Hc'].
Qed.

End JSFacts.

(** * Properties of the live-identification view *)
Module LiveFacts.
Import Dom Live.

(** Rendering only touches the [<video>] element. *)
Lemma flush_frame (s : State) :
  stage (flush s) = stage s /\
  selectedFileName (flush s) = selectedFileName s /\
  predictedSpecies (flush s) = predictedSpecies s /\
  confidence (flush s) = confidence s /\
  isCameraOpen (flush s) = isCameraOpen s /\
  cameraError (flush s) = cameraError s /\
  cameraStream (flush s) = cameraStream s /\
  mounted (flush s) = mounted s /\
  alerts (flush s) = alerts s /\
  timers (flush s) = timers s /\
  pendingMedia (flush s) = pendingMedia s /\
  liveTracks (flush s) = liveTracks s.
Proof.
  unfold flush.
  destruct (isCameraOpen s) eqn:Hopen; [destruct (videoRef s) | ];
    cbn; rewrite ?Hopen; repeat split; reflexivity.
Qed.

Ltac flush_fields s :=
  let H := fresh "Hflush" in
  pose proof (flush_frame s) as H;
  decompose [and] H; clear H.

(** What the timer callback leaves, whatever the state it runs in. *)
Lemma classificationDone_result (s : State) :
  stage (classificationDone s) = done /\
  predictedSpecies (classificationDone s)
    = Some "Banaba (Lagerstroemia speciosa)" /\
  confidence (classificationDone s) = Some 99.2%Q.
Proof. repeat split. Qed.

(** Once every pending timer has fired, the view shows the result. *)
Lemma timers_drain (ts : list Timer) :
  forall s : State,
    timers s = ts -> ts <> [] ->
    exists s2,
      run (repeat TimerFired (List.length ts)) s = Some s2 /\
      stage s2 = done /\
      predictedSpecies s2 = Some "Banaba (Lagerstroemia speciosa)" /\
      confidence s2 = Some 99.2%Q /\
      timers s2 = [].
Proof.
  induction ts as [| t rest IH]; intros s Hts Hne; [congruence | ].
  cbn [List.length repeat run step]. rewrite Hts.
  set (s1 := flush (runTimer t (set_timers rest s))).
  assert (Htimers : timers s1 = rest).
  { subst s1. flush_fields (runTimer t (set_timers rest s)).
    destruct t. cbn in *. congruence. }
  destruct rest as [| t' rest'].
  - exists s1. cbn [List.length repeat run].
    subst s1. flush_fields (runTimer t (set_timers [] s)).
    destruct t. cbn in *. repeat split; congruence.
  - apply IH; [exact Htimers | discriminate].
Qed.

(** C1. A file whose declared mime type starts with [image/] is
    accepted by [handleFiles]: its name is stored, the results are
    emptied, the stage becomes [processing] and one timer is added;
    when the pending timers have fired the stage is [done], the species
    is "Banaba (Lagerstroemia speciosa)" and the confidence is 99.2.
    From the mounted component the stage goes idle, processing, done. *)
Theorem image_file_is_classified (file : File) (rest : list File) (s : State) :
  JS.startsWith (type file) "image/" = true ->
  let s1 := handleFiles (Some (file :: rest)) s in
  (stage s1 = processing /\
   selectedFileName s1 = Some (name file) /\
   predictedSpecies s1 = None /\
   confidence s1 = None /\
   alerts s1 = alerts s /\
   timers s1 = (timers s ++ [ClassificationDone])%list) /\
  (exists s2,
      run (repeat TimerFired (List.length (timers s1))) s1 = Some s2 /\
      stage s2 = done /\
      predictedSpecies s2 = Some "Banaba (Lagerstroemia speciosa)" /\
      confidence s2 = Some 99.2%Q /\
      timers s2 = []) /\
  (forall supported,
      stages [FileChange (Some (file :: rest)); TimerFired] (init supported)
      = [idle; processing; done]).
Proof.
  intros Himage s1.
  assert (Hs1 : s1 = runClassification
                       (set_selectedFileName (Some (name file)) s)).
  { subst s1. unfold handleFiles. rewrite Himage. reflexivity. }
  split; [ | split].
  - rewrite Hs1. repeat split.
  - apply (timers_drain (timers s1) s1 eq_refl).
    rewrite Hs1. cbn. destruct (timers s); discriminate.
  - intros supported.
    cbn [stages step]. unfold onFileChange, handleFiles.
    rewrite Himage. reflexivity.
Qed.

Lemma image_file_is_classified_witness :
  stage (handleFiles (Some [mkFile "leaf.png" "image/png" ""]) (init true))
  = processing /\
  stages [FileChange (Some [mkFile "leaf.png" "image/png" ""]); TimerFired]
    (init true)
  = [idle; processing; done].
Proof.
  destruct (image_file_is_classified (mkFile "leaf.png" "image/png" "") []
              (init true) eq_refl)
    as [[Hstage _] [_ Htrace]].
  split; [exact Hstage | exact (Htrace true)].
Defined.

(** C4. A file whose declared mime type does not start with [image/]
    is rejected by [handleFiles]: the alert is shown and nothing else
    changes; the stage, the selected file name, the species and the
    confidence are what they were (a stage that was idle is idle), and
    no timer is added. *)
Theorem non_image_file_is_rejected (file : File) (rest : list File) (s : State) :
  JS.startsWith (type file) "image/" = false ->
  let s' := handleFiles (Some (file :: rest)) s in
  s' = set_alerts
         (alerts s ++ ["Please upload a plant leaf image (JPG/PNG/TIFF)."])%list s /\
  stage s' = stage s /\
  (stage s = idle -> stage s' = idle) /\
  selectedFileName s' = selectedFileName s /\
  predictedSpecies s' = predictedSpecies s /\
  confidence s' = confidence s /\
  timers s' = timers s /\
  isCameraOpen s' = isCameraOpen s /\
  cameraError s' = cameraError s /\
  cameraStream s' = cameraStream s /\
  liveTracks s' = liveTracks s.
Proof.
  intros Hother s'. subst s'.
  unfold handleFiles. rewrite Hother. cbn.
  repeat split. intros H; exact H.
Qed.

Lemma non_image_file_is_rejected_witness :
  stage (handleFiles (Some [mkFile "notes.pdf" "application/pdf" ""]) (init true))
  = idle /\
  predictedSpecies
    (handleFiles (Some [mkFile "notes.pdf" "application/pdf" ""]) (init true))
  = None /\
  timers (handleFiles (Some [mkFile "notes.pdf" "application/pdf" ""]) (init true))
  = [].
Proof.
  destruct (non_image_file_is_rejected (mkFile "notes.pdf" "application/pdf" "")
              [] (init true) eq_refl)
    as [_ [Hstage [_ [_ [Hspecies [_ [Htimers _]]]]]]].
  exact (conj Hstage (conj Hspecies Htimers)).
Defined.

(** *** The camera *)

Lemma filter_none {A : Type} (f : A -> bool) (l : list A) :
  (forall x, In x l -> f x = false) -> filter f l = [].
Proof.
  induction l as [| a l IH]; intros H; [reflexivity | ].
  cbn. rewrite (H a (or_introl eq_refl)).
  apply IH. intros x Hx. apply H. right. exact Hx.
Qed.

Lemma isStopped_In (ts : list Track) (t : Track) :
  In t ts -> isStopped ts t = true.
Proof.
  intros Hin. unfold isStopped. apply existsb_exists.
  exists t. split; [exact Hin | apply Nat.eqb_refl].
Qed.

(** [stopCamera] stops the tracks of the stored stream and forgets the
    stream: when the live tracks are all tracks of that stream, none is
    left. *)
Lemma stopCamera_releases_stored_stream (s : State) :
  (forall t, In t (liveTracks s) ->
             exists st, cameraStream s = Some st /\ In t (getTracks st)) ->
  liveTracks (stopCamera s) = [] /\ cameraStream (stopCamera s) = None.
Proof.
  intros Hlive. unfold stopCamera.
  destruct (cameraStream s) as [st | ] eqn:Hstream.
  - assert (Hnone : filter (fun t => negb (isStopped (getTracks st) t))
                      (liveTracks s) = []).
    { apply filter_none. intros t Ht.
      destruct (Hlive t Ht) as [st' [Hst' Hin]].
      injection Hst' as <-. rewrite (isStopped_In _ _ Hin). reflexivity. }
    cbn. destruct (videoRef s); unfold stopTracks;
      cbn [liveTracks cameraStream set_videoRef set_cameraStream set_liveTracks];
      rewrite Hnone; split; reflexivity.
  - assert (Hnone : liveTracks s = []).
    { destruct (liveTracks s) as [| t l]; [reflexivity | ].
      destruct (Hlive t (or_introl eq_refl)) as [st [Hst _]]. discriminate. }
    destruct (videoRef s);
      cbn [liveTracks cameraStream set_videoRef];
      rewrite Hstream, Hnone; split; reflexivity.
Qed.

(** A close that comes after the stream has arrived leaves no live track:
    open, the first call resolves, cancel. *)
Lemma open_acquire_close_releases (st : MediaStream) :
  exists s,
    run [ClickOpenCamera; MediaSettled 0 (Resolved (Some st)); ClickCancel]
      (init true) = Some s /\
    isCameraOpen s = false /\ cameraStream s = None /\ liveTracks s = [].
Proof.
  assert (Hacquired :
            run [ClickOpenCamera; MediaSettled 0 (Resolved (Some st))] (init true)
            = Some (mkState idle None None None true None
                      (Some (mkVideo (Some st))) (Some st)
                      true true [] [] [] 0%nat (getTracks st)))
    by (vm_compute; reflexivity).
  cbn [run] in Hacquired |- *.
  destruct (step ClickOpenCamera (init true)) as [s0 | ]; [ | discriminate].
  destruct (step (MediaSettled 0 (Resolved (Some st))) s0) as [s1 | ];
    [ | discriminate].
  injection Hacquired as ->.
  eexists. split; [reflexivity | ].
  match goal with
  | |- context [flush (closeCamera ?x)] => set (s1 := x)
  end.
  flush_fields (closeCamera s1).
  destruct (stopCamera_releases_stored_stream s1) as [Hlive Hstream].
  { intros t Ht. exists st. split; [reflexivity | exact Ht]. }
  split; [ | split].
  - transitivity (isCameraOpen (closeCamera s1)); [assumption | reflexivity].
  - transitivity (cameraStream (closeCamera s1)); [assumption | exact Hstream].
  - transitivity (liveTracks (closeCamera s1)); [assumption | exact Hlive].
Qed.

(** C6, at the input that breaks it.  The overlay is opened and closed
    while the first [getUserMedia] call is still pending; the call then
    resolves with a stream.  [closeCamera] found no stream to stop, and
    the continuation of [startCamera] stores the stream that arrives: the
    overlay is hidden, the stream is kept and all its tracks are live. *)
Theorem close_while_acquiring_leaves_tracks_live (st : MediaStream) :
  option_map
    (fun s => (isCameraOpen s, overlay s, pendingMedia s,
               cameraStream s, liveTracks s))
    (run [ClickOpenCamera; ClickCancel; MediaSettled 0 (Resolved (Some st))]
       (init true))
  = Some (false, OverlayHidden, [], Some st, getTracks st).
Proof. vm_compute. reflexivity. Qed.

(** The same through teardown: the component is unmounted while the call
    is pending. *)
Lemma unmount_while_acquiring_leaves_tracks_live (st : MediaStream) :
  option_map
    (fun s => (mounted s, cameraStream s, liveTracks s))
    (run [ClickOpenCamera; Unmount; MediaSettled 0 (Resolved (Some st))]
       (init true))
  = Some (false, Some st, getTracks st).
Proof. vm_compute. reflexivity. Qed.

(** The message depends on the category of the error alone, but for the
    text of [err.message] in the last case. *)
Lemma cameraErrorMessage_by_category (err : DOMError) :
  cameraErrorMessage err =
  match errorCategory err with
  | PermissionDenied =>
      "Camera permission denied. Please allow camera access in your browser settings."
  | NoDeviceFound => "No camera found on this device."
  | DeviceBusy => "Camera is already in use by another application."
  | OtherError =>
      "Unable to access camera: "
        ++ JS.orElse (err_message err) "Unknown error" ++ "."
  end.
Proof.
  unfold cameraErrorMessage, errorCategory.
  destruct (nameIs err "NotAllowedError" || nameIs err "PermissionDeniedError");
    [reflexivity | ].
  destruct (nameIs err "NotFoundError" || nameIs err "DevicesNotFoundError");
    [reflexivity | ].
  destruct (nameIs err "NotReadableError" || nameIs err "TrackStartError");
    reflexivity.
Qed.

(** Errors of different categories give different messages. *)
Lemma cameraErrorMessage_distinguishes (err err' : DOMError) :
  errorCategory err <> errorCategory err' ->
  cameraErrorMessage err <> cameraErrorMessage err'.
Proof.
  intros Hcat.
  rewrite !cameraErrorMessage_by_category.
  destruct (errorCategory err), (errorCategory err');
    try congruence; cbn; discriminate.
Qed.

Lemma cameraErrorMessage_not_empty (err : DOMError) :
  exists c rest, cameraErrorMessage err = String c rest.
Proof.
  rewrite cameraErrorMessage_by_category.
  destruct (errorCategory err); cbn; eauto.
Qed.

(** C7 as stated fails on a rejection of the first call: permission is
    denied, nothing is shown, and the second call of the chain has been
    made at once. *)
Lemma rejected_first_call_is_retried_silently :
  option_map
    (fun s => (isCameraOpen s, cameraError s, overlay s, pendingMedia s))
    (run [ClickOpenCamera;
          MediaSettled 0 (Rejected (mkError "NotAllowedError" "Permission denied"))]
       (init true))
  = Some (true, None, OverlayShown None, [Relaxed]).
Proof. vm_compute. reflexivity. Qed.

(** C7, amended.  A rejection of the first or of the second
    [getUserMedia] call shows nothing and makes the next call of the
    chain at once.  A rejection of the last call sets [cameraError] to a
    message that is one of four forms chosen by the category of
    [err.name] (permission denied, no device found, device busy, other),
    different categories giving different messages; the overlay stays
    open and shows the message; no further call is made, no stream is
    stored and no track is live that was not. *)
Theorem camera_failure_is_classified
    (s : State) (n : nat) (a : Attempt) (err : DOMError) :
  nth_error (pendingMedia s) n = Some a ->
  isCameraOpen s = true ->
  let others := (firstn n (pendingMedia s) ++ skipn (S n) (pendingMedia s))%list in
  exists s',
    step (MediaSettled n (Rejected err)) s = Some s' /\
    isCameraOpen s' = true /\
    cameraStream s' = cameraStream s /\
    liveTracks s' = liveTracks s /\
    match nextAttempt a with
    | Some next =>
        cameraError s' = cameraError s /\
        pendingMedia s' = (others ++ [next])%list
    | None =>
        cameraError s' = Some (cameraErrorMessage err) /\
        overlay s' = OverlayShown (Some (cameraErrorMessage err)) /\
        pendingMedia s' = others /\
        cameraErrorMessage err =
          match errorCategory err with
          | PermissionDenied =>
              "Camera permission denied. Please allow camera access in your browser settings."
          | NoDeviceFound => "No camera found on this device."
          | DeviceBusy => "Camera is already in use by another application."
          | OtherError =>
              "Unable to access camera: "
                ++ JS.orElse (err_message err) "Unknown error" ++ "."
          end /\
        forall err', errorCategory err' <> errorCategory err ->
                     cameraErrorMessage err' <> cameraErrorMessage err
    end.
Proof.
  intros Hpending Hopen others.
  unfold step. rewrite Hpending. fold others.
  eexists. split; [reflexivity | ].
  set (s1 := resumeCamera a (Rejected err) (set_pendingMedia others s)).
  flush_fields s1.
  assert (Hopen1 : isCameraOpen s1 = true) by (subst s1; destruct a; exact Hopen).
  repeat split.
  - congruence.
  - subst s1. destruct a; cbn in *; congruence.
  - subst s1. destruct a; cbn in *; congruence.
  - destruct a; cbn [nextAttempt].
    + subst s1. cbn in *. split; congruence.
    + subst s1. cbn in *. split; congruence.
    + assert (Herr : cameraError s1 = Some (cameraErrorMessage err))
        by (subst s1; reflexivity).
      repeat split.
      * congruence.
      * unfold overlay.
        replace (isCameraOpen (flush s1)) with true by congruence.
        replace (cameraError (flush s1)) with (Some (cameraErrorMessage err))
          by congruence.
        destruct (cameraErrorMessage_not_empty err) as [c [rest ->]].
        reflexivity.
      * subst s1. cbn in *. congruence.
      * apply cameraErrorMessage_by_category.
      * intros err' Hcat. apply cameraErrorMessage_distinguishes. exact Hcat.
Qed.

Lemma camera_failure_is_classified_witness :
  exists s',
    run [ClickOpenCamera;
         MediaSettled 0 (Rejected (mkError "OverconstrainedError" ""));
         MediaSettled 0 (Rejected (mkError "OverconstrainedError" ""));
         MediaSettled 0 (Rejected (mkError "NotReadableError" "busy"))]
      (init true) = Some s' /\
    overlay s'
    = OverlayShown (Some "Camera is already in use by another application.") /\
    pendingMedia s' = [].
Proof.
  destruct (camera_failure_is_classified
              (flush (requestMedia AnyCamera
                        (set_pendingMedia [] (flush (openCamera (init true))))))
              0 AnyCamera (mkError "NotReadableError" "busy")
              eq_refl eq_refl)
    as [s' [Hstep [_ [_ [_ [_ [Hoverlay [Hpending _]]]]]]]].
  exists s'. split; [exact Hstep | split; [exact Hoverlay | exact Hpending]].
Defined.


End LiveFacts.

(** * Properties of the benchmark view *)
Module BenchmarkFacts.
Import Dom Benchmark.

(** *** What the handlers leave alone *)

(** Attaching a folder writes the selection and the two per-dataset
    records, nothing else. *)
Lemma handleDatasetFiles_frame (files : FileList) (s : State) :
  stage (handleDatasetFiles files s) = stage s /\
  timers (handleDatasetFiles files s) = timers s /\
  previousRuns (handleDatasetFiles files s) = previousRuns s.
Proof.
  unfold handleDatasetFiles.
  destruct files as [[| first rest] | ]; try (repeat split; reflexivity).
  cbv zeta.
  destruct (inferDatasetKeyFromPath (rawPath first));
    destruct (firstn 3 _); repeat split; reflexivity.
Qed.

Lemma animate_frame (start time : Z) (s : State) :
  stage (animate start time s) = stage s /\
  timers (animate start time s) = timers s /\
  previousRuns (animate start time s) = previousRuns s.
Proof.
  unfold animate. cbv zeta.
  match goal with
  | |- context [if ?c then _ else _] => destruct c
  end; repeat split; reflexivity.
Qed.

Lemma frame_callbacks_frame (starts : list Z) :
  forall s : State,
    let s' := fold_left (fun st start => animate start (now st) st) starts s in
    stage s' = stage s /\ timers s' = timers s /\
    previousRuns s' = previousRuns s.
Proof.
  induction starts as [| start starts IH]; intros s; [repeat split | ].
  cbn [fold_left].
  destruct (IH (animate start (now s) s)) as [Hstage [Htimers Hruns]].
  destruct (animate_frame start (now s) s) as [Hstage' [Htimers' Hruns']].
  repeat split; congruence.
Qed.

(** Only a click on a sample and the firing of a timer touch the stage
    or the timers; only the firing of a timer can touch the history. *)
Lemma passive_step (e : Event) (s s' : State) :
  step e s = Some s' ->
  isTimerFired e = false ->
  isClickSample e = false ->
  stage s' = stage s /\ timers s' = timers s /\
  previousRuns s' = previousRuns s.
Proof.
  intros Hstep Htimer Hclick.
  destruct e; try discriminate; cbn [step] in Hstep.
  - injection Hstep as <-. repeat split.
  - injection Hstep as <-. repeat split.
  - injection Hstep as <-. repeat split.
  - injection Hstep as <-. unfold onDatasetDrop.
    exact (handleDatasetFiles_frame files (set_isDatasetDragging false s)).
  - injection Hstep as <-. apply handleDatasetFiles_frame.
  - injection Hstep as <-. repeat split.
  - unfold guard in Hstep. destruct (mayElapse d s); [ | discriminate].
    injection Hstep as <-. repeat split.
  - destruct (frames s) as [| start starts] eqn:Hframes; [discriminate | ].
    injection Hstep as <-.
    exact (frame_callbacks_frame (start :: starts) (set_frames [] s)).
Qed.

Lemma click_sample_keeps_history (name : string) (s s' : State) :
  step (ClickSample name) s = Some s' ->
  s' = runSampleFromDataset name s /\ previousRuns s' = previousRuns s.
Proof.
  cbn [step]. unfold guard. destruct (sampleShown name s); [ | discriminate].
  intros H. injection H as <-. split; reflexivity.
Qed.

(** *** The comparison switch *)

(** C8. A click on the comparison switch negates [compareBaseline] and
    writes nothing else: the confidence, the feature counts, the
    optimisation progress, the history, the run counter, the selected
    dataset with its values and every other field are the same, and the
    view is the one before with only the comparison block shown or
    hidden. *)
Theorem compare_toggle_changes_visibility_only (s : State) :
  exists s',
    step ClickCompare s = Some s' /\
    s' = set_compareBaseline (negb (compareBaseline s)) s /\
    compareBaseline s' = negb (compareBaseline s) /\
    confidence s' = confidence s /\
    featureBefore s' = featureBefore s /\
    featureAfter s' = featureAfter s /\
    optimizationProgress s' = optimizationProgress s /\
    previousRuns s' = previousRuns s /\
    runCounter s' = runCounter s /\
    predictedSpecies s' = predictedSpecies s /\
    stage s' = stage s /\
    selectedFileName s' = selectedFileName s /\
    selectedDatasetKey s' = selectedDatasetKey s /\
    selectedDataset s' = selectedDataset s /\
    datasetFileNames s' = datasetFileNames s /\
    datasetSampleNames s' = datasetSampleNames s /\
    timers s' = timers s /\
    frames s' = frames s /\
    render s' = withComparison (negb (compareBaseline s)) (render s).
Proof.
  eexists. split; [reflexivity | ].
  repeat split.
  destruct s as [dragging k file names sampleNames st species conf before
                   after counter runs compare progress clock ts fs].
  unfold render, withComparison.
  destruct st; reflexivity.
Qed.

(** *** The results of a run and the history *)

Lemma selectedDataset_by_key (s : State) :
  selectedDataset s =
  match selectedDatasetKey s with
  | swedish => swedishLeaf
  | flavia => flaviaLeaf
  | philippine => philippineMedicinal
  end.
Proof. unfold selectedDataset. destruct (selectedDatasetKey s); reflexivity. Qed.

(** The last callback of a run publishes the values of the dataset that
    is selected when it runs, and puts their summary in front of the
    history. *)
Lemma optimizeDone_publishes (s : State) :
  let s' := optimizeDone s in
  stage s' = done /\
  featureBefore s' = Some 2048 /\
  confidence s' = Some (mockAccuracy (selectedDataset s)) /\
  featureAfter s' = Some (mockSelectedFeatures (selectedDataset s)) /\
  runCounter s' = runCounter s + 1 /\
  timers s' = timers s /\
  previousRuns s' = firstn 4 (publishedSummary s' :: previousRuns s).
Proof. repeat split. Qed.

(** The state fields of a completed run carry the values of the selected
    dataset: 96.8 and 45, 95.1 and 52, 94.3 and 40, after 2048. *)
Lemma completed_run_state (s : State) :
  (featureBefore (optimizeDone s), confidence (optimizeDone s),
   featureAfter (optimizeDone s)) =
  match selectedDatasetKey s with
  | swedish => (Some 2048, Some 96.8%Q, Some 45)
  | flavia => (Some 2048, Some 95.1%Q, Some 52)
  | philippine => (Some 2048, Some 94.3%Q, Some 40)
  end.
Proof.
  destruct (optimizeDone_publishes s) as [_ [-> [-> [-> _]]]].
  rewrite selectedDataset_by_key.
  destruct (selectedDatasetKey s); reflexivity.
Qed.

(** The figure under "Model Accuracy" and the line below it are texts of
    the template: the card shows them whatever the state. *)
Lemma model_accuracy_is_a_fixed_text (s : State) :
  modelAccuracy (renderCard s) = "95.1%" /\
  validatedOn (renderCard s) = "Validated on 1,907 images.".
Proof. split; reflexivity. Qed.

(** C2, at the input that breaks it: the default Swedish profile, a
    folder with one image, a click on its sample, the three timers.  The
    state holds 96.8, 2048 and 45 and the closing sentence of the card
    prints 96.8%, but the figure the card shows under "Model Accuracy" is
    95.1%, validated on 1,907 images: the values of Flavia. *)
Theorem swedish_run_shows_flavia_accuracy :
  option_map
    (fun s =>
       (selectedDatasetKey s, confidence s, featureBefore s, featureAfter s,
        option_map
          (fun c => (modelAccuracy c, validatedOn c, closingAccuracy c,
                     shownFeatureBefore c, shownFeatureAfter c))
          (card (render s))))
    (run [Change (Some oneLeaf);
          ClickSample "leaf_01.jpg"; TimerFired; TimerFired; TimerFired]
       init)
  = Some (swedish, Some 96.8%Q, Some 2048, Some 45,
          Some ("95.1%", "Validated on 1,907 images.", "96.8%",
                Some 2048, Some 45)).
Proof. vm_compute. reflexivity. Qed.

Lemma firstn_cons_firstn {A : Type} (x : A) (l : list A) :
  firstn 4 (x :: firstn 4 l) = firstn 4 (x :: l).
Proof.
  cbn [firstn]. f_equal.
  change (firstn 3 (firstn 4 l) = firstn 3 l).
  rewrite firstn_firstn. reflexivity.
Qed.

Lemma timer_fired_history (s s' : State) :
  step TimerFired s = Some s' ->
  previousRuns s' =
  if completesRun TimerFired s
  then firstn 4 (publishedSummary s' :: previousRuns s)
  else previousRuns s.
Proof.
  cbn [step completesRun].
  destruct (timers s) as [| [due t] rest]; [discriminate | ].
  intros H. injection H as <-.
  destruct t; reflexivity.
Qed.

(** The history is the first four of the summaries of the completed
    runs, the latest first. *)
Lemma history_tracks_completed (es : list Event) :
  forall (s s' : State) (earlier : list RunSummary.t),
    previousRuns s = firstn 4 earlier ->
    run es s = Some s' ->
    previousRuns s' = firstn 4 (completed es s earlier).
Proof.
  induction es as [| e es IH]; intros s s' earlier Hruns Hrun.
  - cbn in *. injection Hrun as <-. exact Hruns.
  - cbn [run completed] in *.
    destruct (step e s) as [s1 | ] eqn:Hstep; [ | discriminate].
    apply (IH s1 s'); [ | exact Hrun].
    destruct (isTimerFired e) eqn:Htimer.
    + destruct e; try discriminate.
      rewrite (timer_fired_history s s1 Hstep).
      destruct (completesRun TimerFired s); [ | exact Hruns].
      rewrite Hruns. apply firstn_cons_firstn.
    + assert (Hno : completesRun e s = false) by (destruct e; try reflexivity; discriminate).
      rewrite Hno.
      destruct (isClickSample e) eqn:Hclick.
      * destruct e as [| | | | | sample | | | | ]; try discriminate.
        destruct (click_sample_keeps_history sample s s1 Hstep) as [_ ->].
        exact Hruns.
      * destruct (passive_step e s s1 Hstep Htimer Hclick) as [_ [_ ->]].
        exact Hruns.
Qed.

(** C3. After any sequence of events of the mounted view, the history
    is the list of the summaries of the completed runs, the latest
    first, cut to its first four: it has at most four entries and, once
    a run has completed, its first entry is the summary of the run that
    completed last. *)
Theorem history_is_last_four_runs (es : list Event) (s : State) :
  run es init = Some s ->
  previousRuns s = firstn 4 (completed es init []) /\
  (List.length (previousRuns s) <= 4)%nat /\
  hd_error (previousRuns s) = hd_error (completed es init []).
Proof.
  intros Hrun.
  assert (H : previousRuns s = firstn 4 (completed es init []))
    by (apply (history_tracks_completed es init s []); [reflexivity | exact Hrun]).
  split; [exact H | split].
  - rewrite H. apply firstn_le_length.
  - rewrite H. destruct (completed es init []); reflexivity.
Qed.

Lemma history_is_last_four_runs_witness :
  exists s,
    run sixRuns init = Some s /\
    map RunSummary.id (previousRuns s) = [6; 5; 4; 3] /\
    map RunSummary.id (completed sixRuns init []) = [6; 5; 4; 3; 2; 1] /\
    (List.length (previousRuns s) <= 4)%nat.
Proof.
  destruct (run sixRuns init) as [s | ] eqn:Hrun;
    [ | vm_compute in Hrun; discriminate].
  exists s.
  destruct (history_is_last_four_runs sixRuns s Hrun) as [Hruns [Hlen _]].
  split; [reflexivity | split; [ | split; [ | exact Hlen]]].
  - rewrite Hruns. vm_compute. reflexivity.
  - vm_compute. reflexivity.
Defined.

(** *** The stages of a run *)

(** A callback sets the stage it is written to set, whatever the state. *)
Lemma runTimer_stage (t : Timer) (s : State) :
  stage (runTimer t s) =
  match t with
  | UploadDone => extracting
  | ExtractDone => optimizing
  | OptimizeDone => done
  end.
Proof. destruct t; reflexivity. Qed.

(** A click on a sample empties the result fields and starts the
    sequence; on a view with no timer pending the run is alone. *)
Lemma run_start (name : string) (s0 : State) :
  let s1 := runSampleFromDataset name s0 in
  stage s1 = uploading /\
  predictedSpecies s1 = None /\ confidence s1 = None /\
  featureBefore s1 = None /\ featureAfter s1 = None /\
  optimizationProgress s1 = 0%Q /\
  timers s1 = enqueue (now s0 + 500) UploadDone (timers s0).
Proof. repeat split. Qed.

Lemma alone_timer_fired (s s' : State) :
  alone s -> step TimerFired s = Some s' ->
  alone s' /\ follows (stage s) (stage s') = true.
Proof.
  unfold alone. cbn [step]. intros Halone Hstep.
  destruct (stage s) eqn:Hstage; try contradiction.
  - destruct Halone as [due Htimers]. rewrite Htimers in Hstep.
    injection Hstep as <-. split; [eexists | ]; reflexivity.
  - destruct Halone as [due Htimers]. rewrite Htimers in Hstep.
    injection Hstep as <-. split; [eexists | ]; reflexivity.
  - destruct Halone as [due Htimers]. rewrite Htimers in Hstep.
    injection Hstep as <-. split; reflexivity.
  - rewrite Halone in Hstep. discriminate.
Qed.

Lemma alone_passive (e : Event) (s s' : State) :
  alone s -> step e s = Some s' ->
  isTimerFired e = false -> isClickSample e = false ->
  alone s' /\ stage s' = stage s.
Proof.
  intros Halone Hstep Htimer Hclick.
  destruct (passive_step e s s' Hstep Htimer Hclick) as [Hstage [Htimers _]].
  split; [ | exact Hstage].
  unfold alone in *. rewrite Hstage, Htimers. exact Halone.
Qed.

Lemma follows_stageAfter (k : nat) (b : Stage) :
  follows (stageAfter k) b = true -> b = stageAfter (S k).
Proof.
  unfold stageAfter.
  destruct k as [| [| [| [| [| k]]]]]; cbn; destruct b; intros H;
    try discriminate H; reflexivity.
Qed.

Lemma Stage_eqb_refl (a : Stage) : Stage_eqb a a = true.
Proof. destruct a; reflexivity. Qed.

Lemma linear_cons (a : Stage) (es : list Event) (s : State) :
  linear (a :: stages es s) =
  (Stage_eqb a (stage s) || follows a (stage s)) && linear (stages es s).
Proof. destruct es; reflexivity. Qed.

(** As long as no other run is started, a run that is alone moves from
    stage to next stage, by one stage for each timer that fires. *)
Lemma alone_run_linear (es : list Event) :
  forall (s : State) (k : nat),
    alone s -> stage s = stageAfter k ->
    forallb (fun e => negb (isClickSample e)) es = true ->
    linear (stages es s) = true /\
    forall s2, run es s = Some s2 ->
               stage s2 = stageAfter (k + List.length (filter isTimerFired es)).
Proof.
  induction es as [| e es IH]; intros s k Halone Hstage Hes.
  - split; [reflexivity | ].
    intros s2 H. injection H as <-. cbn. rewrite Nat.add_0_r. exact Hstage.
  - cbn [forallb] in Hes. apply andb_true_iff in Hes as [He Hes].
    apply negb_true_iff in He.
    cbn [stages run filter].
    destruct (step e s) as [s1 | ] eqn:Hstep;
      [ | split; [reflexivity | discriminate]].
    destruct (isTimerFired e) eqn:Htimer.
    + destruct e; try discriminate.
      destruct (alone_timer_fired s s1 Halone Hstep) as [Halone1 Hfollows].
      assert (Hstage1 : stage s1 = stageAfter (S k))
        by (apply follows_stageAfter; rewrite <- Hstage; exact Hfollows).
      destruct (IH s1 (S k) Halone1 Hstage1 Hes) as [Hlin Hend].
      split.
      * rewrite linear_cons, Hfollows, orb_true_r. exact Hlin.
      * intros s2 Hrun. cbn [List.length].
        rewrite Nat.add_succ_r. apply Hend. exact Hrun.
    + destruct (alone_passive e s s1 Halone Hstep Htimer He) as [Halone1 Hsame].
      assert (Hstage1 : stage s1 = stageAfter k) by congruence.
      destruct (IH s1 k Halone1 Hstage1 Hes) as [Hlin Hend].
      split.
      * rewrite linear_cons, Hsame, Stage_eqb_refl. exact Hlin.
      * exact Hend.
Qed.

(** C9 as stated fails when runs overlap.  A first run is in its
    optimising stage when a second sample is clicked; the timers of both
    runs are then pending.  From that click on the stage is uploading,
    extracting, then done (the last timer of the first run), then
    optimizing and done again: the second run sees a stage skipped and a
    stage reverted. *)
Lemma overlapping_runs_are_not_linear :
  option_map (stages [TimerFired; TimerFired; TimerFired; TimerFired])
    (run [Change (Some [mkFile "leaf_01.jpg" "image/jpeg" "leaves/leaf_01.jpg";
                        mkFile "leaf_02.jpg" "image/jpeg" "leaves/leaf_02.jpg"]);
          ClickSample "leaf_01.jpg"; TimerFired; TimerFired;
          ClickSample "leaf_02.jpg"]
       init)
  = Some [uploading; extracting; done; optimizing; done] /\
  linear [uploading; extracting; done; optimizing; done] = false.
Proof. split; vm_compute; reflexivity. Qed.

(** C9, amended.  A click on a sample empties the result fields and sets
    the stage to uploading.  When no timer of an earlier run is pending
    at that click, and for as long as no other sample is clicked, the
    stage only ever stays or moves to the next stage, it is the stage
    reached by the number of timers that have fired, and the three timers
    take it through extracting and optimizing to done.  A callback sets
    its stage whatever the state holds, and no event other than a click
    on a sample or the firing of a timer changes the stage. *)
Theorem isolated_run_is_linear (s0 : State) (name : string) (es : list Event) :
  timers s0 = [] ->
  sampleShown name s0 = true ->
  forallb (fun e => negb (isClickSample e)) es = true ->
  let s1 := runSampleFromDataset name s0 in
  step (ClickSample name) s0 = Some s1 /\
  (stage s1 = uploading /\
   predictedSpecies s1 = None /\ confidence s1 = None /\
   featureBefore s1 = None /\ featureAfter s1 = None /\
   optimizationProgress s1 = 0%Q) /\
  linear (stages es s1) = true /\
  (forall s2, run es s1 = Some s2 ->
              stage s2 = stageAfter (List.length (filter isTimerFired es))) /\
  stages [TimerFired; TimerFired; TimerFired] s1
  = [uploading; extracting; optimizing; done] /\
  (forall t s, stage (runTimer t s) =
               match t with
               | UploadDone => extracting
               | ExtractDone => optimizing
               | OptimizeDone => done
               end) /\
  (forall e s s', step e s = Some s' ->
                  isTimerFired e = false -> isClickSample e = false ->
                  stage s' = stage s).
Proof.
  intros Htimers Hshown Hes s1.
  assert (Halone : alone s1).
  { unfold alone. subst s1.
    destruct (run_start name s0) as [-> [_ [_ [_ [_ [_ ->]]]]]].
    rewrite Htimers. eexists. reflexivity. }
  destruct (alone_run_linear es s1 0 Halone eq_refl Hes) as [Hlin Hend].
  split; [ | split; [ | split; [ | split; [ | split; [ | split]]]]].
  - cbn [step]. rewrite Hshown. reflexivity.
  - repeat split.
  - exact Hlin.
  - exact Hend.
  - subst s1.
    destruct s0 as [dragging k file names sampleNames st species conf before
                      after counter runs compare progress clock ts fs].
    cbn in Htimers. subst ts. reflexivity.
  - exact runTimer_stage.
  - intros e s s' Hstep Htimer Hclick.
    apply (passive_step e s s' Hstep Htimer Hclick).
Qed.

Lemma isolated_run_is_linear_witness :
  linear (stages quietRun (runSampleFromDataset "leaf_01.jpg" attached)) = true /\
  option_map stage (run quietRun (runSampleFromDataset "leaf_01.jpg" attached))
  = Some done /\
  stages [TimerFired; TimerFired; TimerFired]
    (runSampleFromDataset "leaf_01.jpg" attached)
  = [uploading; extracting; optimizing; done].
Proof.
  destruct (isolated_run_is_linear attached "leaf_01.jpg" quietRun
              eq_refl eq_refl eq_refl)
    as [_ [_ [Hlin [Hend [Hthree _]]]]].
  split; [exact Hlin | split; [ | exact Hthree]].
  destruct (run quietRun (runSampleFromDataset "leaf_01.jpg" attached))
    as [s2 | ] eqn:Hrun; [ | vm_compute in Hrun; discriminate].
  cbn [option_map]. rewrite (Hend s2 eq_refl). reflexivity.
Defined.

(** *** Attaching a folder *)

Lemma inferred_is_first_mentioned (raw : string) :
  inferDatasetKeyFromPath raw
  = find (mentions (JS.toLowerCase raw)) [swedish; flavia; philippine].
Proof.
  unfold inferDatasetKeyFromPath, mentions, keywords.
  cbn [find existsb]. rewrite !orb_false_r.
  destruct (JS.includes (JS.toLowerCase raw) "swedish"); [reflexivity | ].
  destruct (JS.includes (JS.toLowerCase raw) "flavia"); [reflexivity | ].
  destruct (JS.includes (JS.toLowerCase raw) "philippine" ||
            JS.includes (JS.toLowerCase raw) "medicinal"); reflexivity.
Qed.

(** A path that contains the key or the lower-cased label of a dataset
    contains one of the words looked for under its key. *)
Lemma key_or_label_is_mentioned (lower : string) (d : Dataset) :
  In d DATASETS ->
  JS.includes lower (keyString (key d)) = true \/
  JS.includes lower (JS.toLowerCase (label d)) = true ->
  mentions lower (key d) = true.
Proof.
  intros Hd Hin.
  assert (Hword : JS.includes lower (keyString (key d)) = true).
  { destruct Hin as [H | H]; [exact H | ].
    apply (JSFacts.includes_trans _ _ _ H).
    destruct Hd as [<- | [<- | [<- | []]]]; reflexivity. }
  unfold mentions.
  destruct Hd as [<- | [<- | [<- | []]]]; cbn in *; rewrite Hword; reflexivity.
Qed.

Lemma handleDatasetFiles_selection (first : File) (rest : list File) (s : State) :
  selectedDatasetKey (handleDatasetFiles (Some (first :: rest)) s)
  = targetKey first s.
Proof.
  unfold handleDatasetFiles, targetKey. cbv zeta.
  destruct (inferDatasetKeyFromPath (rawPath first));
    destruct (firstn 3 _); reflexivity.
Qed.

(** C5 as stated fails on a folder whose first file does not carry the
    word: a later path contains "flavia" (in any case), nothing is
    inferred, the selection stays on Swedish and the samples are stored
    under Swedish. *)
Lemma later_paths_are_not_searched :
  existsb (fun f => JS.includes (JS.toLowerCase (rawPath f)) (keyString flavia))
    mixedFolder = true /\
  option_map
    (fun s => (selectedDatasetKey s,
               get swedish (datasetSampleNames s),
               get flavia (datasetSampleNames s)))
    (run [Drop (Some mixedFolder)] init)
  = Some (swedish, ["001.jpg"], []).
Proof. split; vm_compute; reflexivity. Qed.

(** C5, amended.  The inference reads one path, that of the first file
    of the folder (its relative path, its name when that is empty),
    lower-cased: it yields the first of swedish, flavia, philippine
    whose word (the key, and "medicinal" for philippine) occurs in it,
    so any path with the same lower-casing gives the same answer, a path
    that contains the key or the label of a dataset yields a dataset,
    and nothing is yielded when no word occurs.  On a drop as on a
    browse the selection becomes the inferred dataset, and stays when
    none is inferred. *)
Theorem inference_reads_first_path (first : File) (rest : list File) (s : State) :
  let lower := JS.toLowerCase (rawPath first) in
  let inferred := inferDatasetKeyFromPath (rawPath first) in
  inferred = find (mentions lower) [swedish; flavia; philippine] /\
  (forall raw, JS.toLowerCase raw = lower ->
               inferDatasetKeyFromPath raw = inferred) /\
  inferDatasetKeyFromPath lower = inferred /\
  (forall d, In d DATASETS ->
             JS.includes lower (keyString (key d)) = true \/
             JS.includes lower (JS.toLowerCase (label d)) = true ->
             inferred <> None) /\
  (forall k, inferred = Some k -> mentions lower k = true) /\
  (inferred = None -> forall k, mentions lower k = false) /\
  (forall e, e = Drop (Some (first :: rest)) \/ e = Change (Some (first :: rest)) ->
             exists s',
               step e s = Some s' /\
               selectedDatasetKey s' =
               match inferred with
               | Some k => k
               | None => selectedDatasetKey s
               end).
Proof.
  intros lower inferred.
  assert (Hfind : inferred = find (mentions lower) [swedish; flavia; philippine])
    by apply inferred_is_first_mentioned.
  split; [exact Hfind | ].
  split; [ | split; [ | split; [ | split; [ | split]]]].
  - intros raw Hraw. subst inferred.
    rewrite !inferred_is_first_mentioned, Hraw. reflexivity.
  - subst inferred lower.
    rewrite !inferred_is_first_mentioned, JSFacts.toLowerCase_idempotent.
    reflexivity.
  - intros d Hd Hin Hnone.
    pose proof (key_or_label_is_mentioned lower d Hd Hin) as Hm.
    rewrite Hfind in Hnone.
    pose proof (find_none _ _ Hnone (key d)) as Hno.
    rewrite Hno in Hm; [discriminate | ].
    destruct (key d); cbn; auto.
  - intros k Hk. rewrite Hfind in Hk.
    apply find_some in Hk. apply Hk.
  - intros Hnone k. rewrite Hfind in Hnone.
    apply (find_none _ _ Hnone k).
    destruct k; cbn; auto.
  - intros e [-> | ->]; eexists; (split; [reflexivity | ]).
    + unfold onDatasetDrop. rewrite handleDatasetFiles_selection. reflexivity.
    + unfold onDatasetChange. rewrite handleDatasetFiles_selection. reflexivity.
Qed.

Lemma get_put_same {A : Type} (k : DatasetKey) (v : A) (m : ByKey A) :
  get k (put k v m) = v.
Proof. destruct k; reflexivity. Qed.

Lemma get_put_other {A : Type} (k k' : DatasetKey) (v : A) (m : ByKey A) :
  k' <> k -> get k' (put k v m) = get k' m.
Proof. destruct k, k'; intros H; try reflexivity; contradiction. Qed.

Lemma filter_nonempty {A : Type} (f : A -> bool) (l : list A) :
  (0 <? List.length (filter f l))%nat = existsb f l.
Proof.
  induction l as [| a l IH]; cbn; [reflexivity | ].
  destruct (f a); [reflexivity | exact IH].
Qed.

(** What [handleDatasetFiles] stores as sample names, and where. *)
Lemma handleDatasetFiles_samples (first : File) (rest : list File) (s : State) :
  datasetSampleNames (handleDatasetFiles (Some (first :: rest)) s)
  = put (targetKey first s)
      (map (fun f => formatPathLabel (rawPath f))
         (firstn 3 (chosenFiles (first :: rest))))
      (datasetSampleNames s).
Proof.
  unfold handleDatasetFiles, targetKey, chosenFiles. cbv zeta.
  rewrite filter_nonempty.
  destruct (inferDatasetKeyFromPath (rawPath first));
    destruct (firstn 3 _); reflexivity.
Qed.

(** [formatPathLabel] gives the last part of the path, the whole path
    when that part is empty. *)
Lemma formatPathLabel_last (raw : string) :
  formatPathLabel raw =
  match last (JS.splitPath raw) "" with
  | EmptyString => raw
  | part => part
  end.
Proof.
  unfold formatPathLabel, JS.orElse.
  destruct (last (JS.splitPath raw) ""); reflexivity.
Qed.

(** C10 as stated fails on a file whose name ends with a separator: the
    last part of its path is empty, and what is stored is the whole
    relative path, separators included. *)
Lemma trailing_separator_keeps_whole_name :
  option_map (fun s => get swedish (datasetSampleNames s))
    (run [Change (Some [trailingFile])] init)
  = Some [webkitRelativePath trailingFile] /\
  JS.splitPath (webkitRelativePath trailingFile) = ["leaves"; "leaf"; ""] /\
  JS.hasSeparator (webkitRelativePath trailingFile) = true.
Proof. repeat split; vm_compute; reflexivity. Qed.

(** C10, amended.  For a folder with at least one file, the names stored
    for the target dataset (the inferred one, else the selected one) are
    those of the first three of the chosen files: the files that are
    images by lower-cased mime type or by lower-cased extension when
    there is one, all the files otherwise; the lists of the other
    datasets are untouched.  A stored name is the last part of the
    relative path of the file (of its name when that path is empty),
    parts being separated by a slash or a backslash, and the whole path
    when that last part is empty; the last part has no separator and is
    what follows the last separator of the path. *)
Theorem sample_names_from_folder (first : File) (rest : list File) (s : State) :
  let files := first :: rest in
  let s' := handleDatasetFiles (Some files) s in
  let stored := get (targetKey first s) (datasetSampleNames s') in
  stored = map (fun f => formatPathLabel (rawPath f))
               (firstn 3 (chosenFiles files)) /\
  (List.length stored <= 3)%nat /\
  chosenFiles files =
    (if existsb isImageFile files then filter isImageFile files else files) /\
  (forall f,
      isImageFile f =
      JS.startsWith (JS.toLowerCase (type f)) "image/" ||
      existsb (JS.endsWith (JS.toLowerCase (name f))) knownExtensions) /\
  (forall k, k <> targetKey first s ->
             get k (datasetSampleNames s') = get k (datasetSampleNames s)) /\
  (forall f,
      rawPath f =
      match webkitRelativePath f with
      | EmptyString => name f
      | path => path
      end) /\
  (forall raw,
      formatPathLabel raw =
      match last (JS.splitPath raw) "" with
      | EmptyString => raw
      | part => part
      end /\
      JS.hasSeparator (last (JS.splitPath raw) "") = false /\
      exists before,
        raw = before ++ last (JS.splitPath raw) "" /\
        (before = "" \/
         exists b c, before = b ++ String c "" /\ JS.isSeparator c = true)).
Proof.
  intros files s' stored.
  assert (Hstored : stored = map (fun f => formatPathLabel (rawPath f))
                               (firstn 3 (chosenFiles files))).
  { subst stored s' files.
    rewrite handleDatasetFiles_samples. apply get_put_same. }
  split; [exact Hstored | ].
  split; [ | split; [ | split; [ | split; [ | split]]]].
  - rewrite Hstored, length_map. apply firstn_le_length.
  - reflexivity.
  - intros f. unfold isImageFile, knownExtensions. cbn [existsb].
    rewrite orb_false_r, !orb_assoc. reflexivity.
  - intros k Hk. subst s' files.
    rewrite handleDatasetFiles_samples. apply get_put_other. exact Hk.
  - intros f. unfold rawPath. destruct (webkitRelativePath f); reflexivity.
  - intros raw. split; [apply formatPathLabel_last | ].
    apply JSFacts.splitPath_last.
Qed.

End BenchmarkFacts.

(** * More properties of the live-identification view *)
Module LiveExtra.
Import Dom Live.

(** Breaks a goal about a handler applied to a state given by its
    fields into the cases of the tests the handler makes. *)
Ltac by_cases :=
  repeat match goal with
         | |- context [match ?x with _ => _ end] => destruct x eqn:?
         end;
  try reflexivity.

Lemma flush_idempotent (s : State) : flush (flush s) = flush s.
Proof.
  unfold flush.
  destruct (isCameraOpen s) eqn:Hopen.
  - destruct (videoRef s) eqn:Hvideo.
    + rewrite Hopen, Hvideo. reflexivity.
    + cbn. rewrite Hopen. reflexivity.
  - cbn. rewrite Hopen. reflexivity.
Qed.

Lemma core_flush (s : State) : core (flush s) = core s.
Proof. unfold flush, core. by_cases. Qed.

Lemma core_openCamera (s : State) : core (openCamera s) = core s.
Proof.
  unfold openCamera, startCamera.
  destruct s; unfold flush, core; cbn. by_cases.
Qed.

Lemma core_stopCamera (s : State) : core (stopCamera s) = core s.
Proof. unfold stopCamera, core. destruct s; cbn. by_cases. Qed.

Lemma core_closeCamera (s : State) : core (closeCamera s) = core s.
Proof. unfold closeCamera. rewrite <- (core_stopCamera s). reflexivity. Qed.

Lemma core_captureFromCamera (w h : Z) (c : bool) (s : State) :
  core (captureFromCamera w h c s) = core s.
Proof. unfold captureFromCamera, core. by_cases. Qed.

Lemma core_resumeCamera (a : Attempt) (r : Settled) (s : State) :
  core (resumeCamera a r s) = core s.
Proof.
  unfold resumeCamera, withStream, acquire, core.
  destruct s; cbn. by_cases.
Qed.

Lemma core_unmount (s : State) : core (unmount s) = core s.
Proof. unfold unmount. rewrite <- (core_stopCamera s). reflexivity. Qed.

Lemma consistent_core (s s' : State) :
  core s' = core s -> consistent s -> consistent s'.
Proof.
  unfold core, consistent. intros H. injection H as -> -> -> -> ->.
  intros H. exact H.
Qed.

Lemma consistent_handleFiles (files : FileList) (s : State) :
  consistent s -> consistent (handleFiles files s).
Proof.
  intros H. unfold handleFiles.
  destruct files as [[| file rest] | ]; try exact H.
  destruct (negb (JS.startsWith (type file) "image/")).
  - exact H.
  - unfold consistent. cbn. repeat split; try discriminate.
    destruct (timers s); discriminate.
Qed.

Lemma consistent_classificationDone (s : State) (t : Timer) (rest : list Timer) :
  timers s = t :: rest -> consistent s ->
  consistent (runTimer t (set_timers rest s)).
Proof.
  intros Htimers H. destruct t. unfold consistent in *. cbn.
  destruct (stage s).
  - destruct H as [_ [_ [_ H]]]. rewrite Htimers in H. discriminate.
  - repeat split. apply H.
  - repeat split. apply H.
Qed.

(** Every event keeps the stage and the fields it stands for in
    step. *)
Lemma step_consistent (e : Event) (s s' : State) :
  step e s = Some s' -> consistent s -> consistent s'.
Proof.
  intros Hstep H.
  destruct e; cbn [step] in Hstep; unfold guard in Hstep.
  - destruct (mounted s); [ | discriminate]. injection Hstep as <-.
    apply (consistent_core (onFileChange files s)); [apply core_flush | ].
    apply consistent_handleFiles. exact H.
  - destruct (mounted s); [ | discriminate]. injection Hstep as <-.
    apply (consistent_core s); [ | exact H].
    rewrite core_flush. apply core_openCamera.
  - destruct (mounted s && isCameraOpen s); [ | discriminate].
    injection Hstep as <-.
    apply (consistent_core s); [ | exact H].
    rewrite core_flush. apply core_closeCamera.
  - destruct (mounted s && isCameraOpen s); [ | discriminate].
    injection Hstep as <-.
    apply (consistent_core s); [ | exact H].
    rewrite core_flush. apply core_captureFromCamera.
  - destruct (pendingBlobs s) as [| n]; [discriminate | ].
    injection Hstep as <-.
    apply (consistent_core (blobEncoded blob (set_pendingBlobs n s)));
      [apply core_flush | ].
    unfold blobEncoded. destruct blob; cbn [negb]; [ | exact H].
    apply (consistent_core
             (handleFiles (Some [capturedFile]) (set_pendingBlobs n s)));
      [apply core_closeCamera | ].
    apply consistent_handleFiles. exact H.
  - destruct (nth_error (pendingMedia s) n); [ | discriminate].
    injection Hstep as <-.
    apply (consistent_core s); [ | exact H].
    rewrite core_flush, core_resumeCamera. reflexivity.
  - destruct (timers s) as [| t rest] eqn:Htimers; [discriminate | ].
    injection Hstep as <-.
    apply (consistent_core (runTimer t (set_timers rest s)));
      [apply core_flush | ].
    apply consistent_classificationDone; assumption.
  - destruct (mounted s); [ | discriminate]. injection Hstep as <-.
    apply (consistent_core s); [apply core_unmount | exact H].
Qed.

Lemma run_consistent (es : list Event) :
  forall s s', run es s = Some s' -> consistent s -> consistent s'.
Proof.
  induction es as [| e es IH]; intros s s' Hrun H; cbn [run] in Hrun.
  - injection Hrun as <-. exact H.
  - destruct (step e s) as [s1 | ] eqn:Hstep; [ | discriminate].
    apply (IH s1 s' Hrun). apply (step_consistent e s s1 Hstep H).
Qed.

(** X1. Along every run of the view, the stage tells what the result
    fields hold: while idle no file is selected, no result is there and
    no timer is pending; while processing a file is selected, the result
    is empty and a timer is pending, so the stage will leave processing;
    once done the result is the fixed species with the confidence 99.2.
    The result is there exactly when the stage is done. *)
Theorem stage_tells_result (supported : bool) (es : list Event) (s : State) :
  run es (init supported) = Some s ->
  match stage s with
  | idle =>
      selectedFileName s = None /\ predictedSpecies s = None /\
      confidence s = None /\ timers s = []
  | processing =>
      selectedFileName s <> None /\ predictedSpecies s = None /\
      confidence s = None /\ timers s <> []
  | done =>
      selectedFileName s <> None /\
      predictedSpecies s = Some "Banaba (Lagerstroemia speciosa)" /\
      confidence s = Some 99.2%Q
  end /\
  (predictedSpecies s <> None <-> stage s = done).
Proof.
  intros Hrun.
  assert (H : consistent s).
  { apply (run_consistent es (init supported) s Hrun).
    unfold consistent. cbn. repeat split. }
  split; [exact H | ].
  unfold consistent in H.
  destruct (stage s); split; intros H'; try discriminate; try reflexivity.
  - destruct H as [_ [H _]]. contradiction.
  - destruct H as [_ [H _]]. contradiction.
  - destruct H as [_ [-> _]]. discriminate.
Qed.

Lemma stage_tells_result_witness :
  option_map stage (run cameraSession (init true)) = Some done /\
  option_map predictedSpecies (run cameraSession (init true))
  = Some (Some "Banaba (Lagerstroemia speciosa)").
Proof.
  destruct (run cameraSession (init true)) as [s | ] eqn:Hrun;
    [ | vm_compute in Hrun; discriminate].
  assert (Hdone : stage s = done)
    by (vm_compute in Hrun; injection Hrun as <-; reflexivity).
  pose proof (stage_tells_result true cameraSession s Hrun) as [H _].
  rewrite Hdone in H. destruct H as [_ [Hspecies _]].
  cbn [option_map]. rewrite Hdone, Hspecies. split; reflexivity.
Defined.

(** X2. The third text of the results panel, "Ready to classify the
    selected image.", is never shown: along every run the panel asks for
    an image, names the file being classified, or shows the prediction,
    and it asks for an image as long as the stage is idle. *)
Theorem ready_text_is_never_shown (supported : bool) (es : list Event) (s : State) :
  run es (init supported) = Some s ->
  panel s <> ReadyToClassify /\
  (stage s = idle -> panel s = AskForImage).
Proof.
  intros Hrun.
  assert (H : consistent s).
  { apply (run_consistent es (init supported) s Hrun).
    unfold consistent. cbn. repeat split. }
  unfold consistent in H. unfold panel, truthy.
  destruct (stage s).
  - destruct H as [-> _]. split; [discriminate | reflexivity].
  - split; [ | discriminate].
    destruct (selectedFileName s) as [[| c r] | ]; discriminate.
  - split; discriminate.
Qed.

Lemma ready_text_is_never_shown_witness :
  option_map panel (run [FileChange (Some [mkFile "leaf.png" "image/png" ""])]
                      (init true))
  <> Some ReadyToClassify.
Proof.
  destruct (run [FileChange (Some [mkFile "leaf.png" "image/png" ""])]
              (init true)) as [s | ] eqn:Hrun; [ | discriminate].
  pose proof (ready_text_is_never_shown true _ s Hrun) as [H _].
  cbn [option_map]. intros Heq. injection Heq as Heq. exact (H Heq).
Defined.

(** *** The camera, again *)

Lemma isStopped_iff (ts : list Track) (t : Track) :
  isStopped ts t = true <-> In t ts.
Proof.
  unfold isStopped. rewrite existsb_exists. split.
  - intros [x [Hin Heq]]. apply Nat.eqb_eq in Heq. subst x. exact Hin.
  - intros Hin. exists t. split; [exact Hin | apply Nat.eqb_refl].
Qed.

(** The tracks live after [stopCamera] are the live ones that the stored
    stream does not have. *)
Lemma stopCamera_liveTracks (s : State) (t : Track) :
  In t (liveTracks (stopCamera s)) <->
  In t (liveTracks s) /\
  forall st, cameraStream s = Some st -> ~ In t (getTracks st).
Proof.
  unfold stopCamera.
  destruct (cameraStream s) as [st | ] eqn:Hstream.
  - assert (Hlive : liveTracks
                      match videoRef (set_cameraStream None (stopTracks (getTracks st) s)) with
                      | Some _ =>
                          set_videoRef (Some (mkVideo None))
                            (set_cameraStream None (stopTracks (getTracks st) s))
                      | None => set_cameraStream None (stopTracks (getTracks st) s)
                      end
                    = filter (fun t => negb (isStopped (getTracks st) t))
                        (liveTracks s)).
    { destruct (videoRef (set_cameraStream None (stopTracks (getTracks st) s)));
        reflexivity. }
    rewrite Hlive, filter_In, negb_true_iff.
    split.
    + intros [Hin Hstopped]. split; [exact Hin | ].
      intros st' Hst' Hin'. injection Hst' as <-.
      apply isStopped_iff in Hin'. congruence.
    + intros [Hin Hnot]. split; [exact Hin | ].
      destruct (isStopped (getTracks st) t) eqn:Hstopped; [ | reflexivity].
      apply isStopped_iff in Hstopped. exfalso. exact (Hnot st eq_refl Hstopped).
  - assert (Hlive : liveTracks
                      match videoRef s with
                      | Some _ => set_videoRef (Some (mkVideo None)) s
                      | None => s
                      end = liveTracks s)
      by (destruct (videoRef s); reflexivity).
    rewrite Hlive. split; [intros H; split; [exact H | discriminate] | tauto].
Qed.

(** X3. [stopCamera] stops the tracks of the stored stream and no
    other, forgets the stream, and leaves the classification, the error
    and the overlay flag alone; stopping or closing a second time changes
    nothing more. *)
Theorem stopCamera_is_idempotent (s : State) :
  stopCamera (stopCamera s) = stopCamera s /\
  closeCamera (closeCamera s) = closeCamera s /\
  cameraStream (stopCamera s) = None /\
  (forall t, In t (liveTracks (stopCamera s)) <->
             In t (liveTracks s) /\
             forall st, cameraStream s = Some st -> ~ In t (getTracks st)) /\
  core (stopCamera s) = core s /\
  cameraError (stopCamera s) = cameraError s /\
  isCameraOpen (stopCamera s) = isCameraOpen s /\
  pendingMedia (stopCamera s) = pendingMedia s.
Proof.
  split; [ | split; [ | split; [ | split; [ | split]]]].
  - destruct s as [st file species conf open err video stream mnt api al ts
                     pm pb live].
    unfold stopCamera. destruct stream, video; reflexivity.
  - destruct s as [st file species conf open err video stream mnt api al ts
                     pm pb live].
    unfold closeCamera, stopCamera. destruct stream, video; reflexivity.
  - unfold stopCamera. destruct s; cbn. by_cases.
  - intros t. apply stopCamera_liveTracks.
  - apply LiveExtra.core_stopCamera.
  - unfold stopCamera. destruct s; cbn. by_cases; repeat split.
Qed.

Lemma stopCamera_others (s : State) :
  alerts (stopCamera s) = alerts s /\
  pendingBlobs (stopCamera s) = pendingBlobs s /\
  cameraStream (stopCamera s) = None.
Proof.
  unfold stopCamera.
  destruct (cameraStream s) eqn:Hstream; cbn [videoRef set_cameraStream stopTracks set_liveTracks];
    destruct (videoRef s); cbn; rewrite ?Hstream; repeat split.
Qed.

Lemma handleFiles_camera (files : FileList) (s : State) :
  cameraStream (handleFiles files s) = cameraStream s /\
  liveTracks (handleFiles files s) = liveTracks s /\
  pendingBlobs (handleFiles files s) = pendingBlobs s /\
  pendingMedia (handleFiles files s) = pendingMedia s.
Proof.
  unfold handleFiles.
  destruct files as [[| file rest] | ]; try (repeat split; reflexivity).
  destruct (negb (JS.startsWith (type file) "image/")); repeat split.
Qed.

(** X4. When the encoded frame arrives, the capture is classified and
    the camera is closed: the file name is "captured-leaf.jpg", the
    stage is processing with an empty result and one more timer, no
    alert is shown (the captured file always passes the image check), the
    overlay is hidden, the stored stream is forgotten and its tracks are
    stopped. *)
Theorem capture_is_classified_and_closes (s : State) (n : nat) :
  pendingBlobs s = S n ->
  exists s',
    step (BlobEncoded true) s = Some s' /\
    selectedFileName s' = Some "captured-leaf.jpg" /\
    stage s' = processing /\
    predictedSpecies s' = None /\ confidence s' = None /\
    timers s' = (timers s ++ [ClassificationDone])%list /\
    alerts s' = alerts s /\
    isCameraOpen s' = false /\
    overlay s' = OverlayHidden /\
    cameraStream s' = None /\
    pendingBlobs s' = n /\
    (forall t, In t (liveTracks s') <->
               In t (liveTracks s) /\
               forall st, cameraStream s = Some st -> ~ In t (getTracks st)).
Proof.
  intros Hblobs. cbn [step]. rewrite Hblobs.
  eexists. split; [reflexivity | ].
  set (s1 := handleFiles (Some [capturedFile]) (set_pendingBlobs n s)).
  change (blobEncoded true (set_pendingBlobs n s)) with (closeCamera s1).
  assert (Hcore : core (flush (closeCamera s1))
                  = (processing, Some "captured-leaf.jpg", None, None,
                     (timers s ++ [ClassificationDone])%list))
    by (rewrite core_flush, core_closeCamera; reflexivity).
  unfold core in Hcore. injection Hcore as Hstage Hname Hspecies Hconf Htimers.
  destruct (stopCamera_others s1) as [Halerts [Hblobs1 Hstream1]].
  split; [exact Hname | ].
  split; [exact Hstage | ].
  split; [exact Hspecies | ].
  split; [exact Hconf | ].
  split; [exact Htimers | ].
  split; [exact Halerts | ].
  split; [reflexivity | ].
  split; [reflexivity | ].
  split; [exact Hstream1 | ].
  split; [exact Hblobs1 | ].
  intros t. apply (stopCamera_liveTracks s1 t).
Qed.

Lemma capture_is_classified_and_closes_witness :
  exists s',
    step (BlobEncoded true) capturing = Some s' /\
    selectedFileName s' = Some "captured-leaf.jpg" /\
    stage s' = processing /\
    overlay s' = OverlayHidden /\
    cameraStream s' = None.
Proof.
  destruct (capture_is_classified_and_closes capturing 0 eq_refl)
    as [s' [Hstep [Hname [Hstage [_ [_ [_ [_ [_ [Hoverlay [Hstream _]]]]]]]]]]].
  exists s'. repeat split; assumption.
Defined.

(** What an event leaves is rendered, as long as the view is mounted. *)
Lemma step_rendered (e : Event) (s s' : State) :
  step e s = Some s' -> mounted s' = true -> flush s' = s'.
Proof.
  intros Hstep Hmounted.
  destruct e; cbn [step] in Hstep; unfold guard in Hstep;
    repeat match type of Hstep with
           | context [match ?x with _ => _ end] => destruct x eqn:?
           end;
    try discriminate; injection Hstep as <-;
    try apply flush_idempotent.
  discriminate Hmounted.
Qed.

Lemma run_rendered (es : list Event) :
  forall s s',
    run es s = Some s' ->
    (mounted s = true -> flush s = s) ->
    mounted s' = true -> flush s' = s'.
Proof.
  induction es as [| e es IH]; intros s s' Hrun Hs; cbn [run] in Hrun.
  - injection Hrun as <-. exact Hs.
  - destruct (step e s) as [s1 | ] eqn:Hstep; [ | discriminate].
    apply (IH s1 s' Hrun). apply (step_rendered e s s1 Hstep).
Qed.

(** X5. A capture that cannot give a frame is dropped without a trace:
    along every run, a click on "Capture" while the video has no width or
    no height, or while no 2d context can be had, leaves the view exactly
    as it was (no alert, no error line, nothing pending), and an encoding
    that gives no blob only ends. *)
Theorem failed_capture_changes_nothing
    (supported : bool) (es : list Event) (s : State)
    (videoWidth videoHeight : Z) (context2d : bool) :
  run es (init supported) = Some s ->
  mounted s = true ->
  isCameraOpen s = true ->
  videoWidth = 0 \/ videoHeight = 0 \/ context2d = false ->
  step (ClickCapture videoWidth videoHeight context2d) s = Some s /\
  (forall n, pendingBlobs s = S n ->
             step (BlobEncoded false) s = Some (set_pendingBlobs n s)).
Proof.
  intros Hrun Hmounted Hopen Hfail.
  assert (Hflush : flush s = s).
  { apply (run_rendered es (init supported) s Hrun); [reflexivity | exact Hmounted]. }
  split.
  - cbn [step]. rewrite Hmounted, Hopen. cbn [andb guard].
    assert (Hsame : captureFromCamera videoWidth videoHeight context2d s = s).
    { unfold captureFromCamera. destruct (videoRef s); [ | reflexivity].
      destruct Hfail as [-> | [-> | ->]].
      - reflexivity.
      - rewrite orb_true_r. reflexivity.
      - destruct ((videoWidth =? 0) || (videoHeight =? 0)); reflexivity. }
    rewrite Hsame, Hflush. reflexivity.
  - intros n Hblobs. cbn [step]. rewrite Hblobs. cbn [blobEncoded negb].
    f_equal.
    assert (Hvideo : videoRef s <> None).
    { intros Hnone. unfold flush in Hflush. rewrite Hopen, Hnone in Hflush.
      apply (f_equal videoRef) in Hflush. cbn in Hflush. congruence. }
    unfold flush. cbn [isCameraOpen videoRef set_pendingBlobs].
    rewrite Hopen.
    destruct (videoRef s); [reflexivity | contradiction].
Qed.

Lemma failed_capture_changes_nothing_witness :
  exists s,
    run [ClickOpenCamera;
         MediaSettled 0 (Resolved (Some (mkStream [1%nat; 2%nat])))]
      (init true) = Some s /\
    step (ClickCapture 0 0 true) s = Some s /\
    step (ClickCapture 640 480 false) s = Some s.
Proof.
  destruct (run [ClickOpenCamera;
                 MediaSettled 0 (Resolved (Some (mkStream [1%nat; 2%nat])))]
              (init true)) as [s | ] eqn:Hrun;
    [ | vm_compute in Hrun; discriminate].
  assert (Hmounted : mounted s = true)
    by (vm_compute in Hrun; injection Hrun as <-; reflexivity).
  assert (Hopen : isCameraOpen s = true)
    by (vm_compute in Hrun; injection Hrun as <-; reflexivity).
  exists s. split; [reflexivity | split].
  - apply (failed_capture_changes_nothing true _ s 0 0 true Hrun Hmounted Hopen).
    left. reflexivity.
  - apply (failed_capture_changes_nothing true _ s 640 480 false
             Hrun Hmounted Hopen).
    right. right. reflexivity.
Defined.

Lemma cameraUnavailable_camera (s s' : State) :
  camera s' = camera s -> cameraUnavailable s -> cameraUnavailable s'.
Proof.
  unfold camera, cameraUnavailable. intros H.
  injection H as -> -> -> -> -> ->. intros H. exact H.
Qed.

Lemma camera_flush (s : State) : camera (flush s) = camera s.
Proof.
  unfold flush.
  destruct (isCameraOpen s); [destruct (videoRef s) | ]; reflexivity.
Qed.

Lemma camera_handleFiles (files : FileList) (s : State) :
  camera (handleFiles files s) = camera s.
Proof.
  unfold handleFiles.
  destruct files as [[| file rest] | ]; try reflexivity.
  destruct (negb (JS.startsWith (type file) "image/")); reflexivity.
Qed.

Lemma camera_captureFromCamera (w h : Z) (c : bool) (s : State) :
  camera (captureFromCamera w h c s) = camera s.
Proof.
  unfold captureFromCamera.
  destruct (videoRef s); [ | reflexivity].
  destruct ((w =? 0) || (h =? 0)); [reflexivity | ].
  destruct (negb c); reflexivity.
Qed.

Lemma cameraUnavailable_stopCamera (s : State) :
  cameraUnavailable s -> camera (stopCamera s) = camera s.
Proof.
  intros [_ [_ [Hstream _]]]. unfold stopCamera. rewrite Hstream.
  destruct (videoRef s); reflexivity.
Qed.

Lemma cameraUnavailable_closeCamera (s : State) :
  cameraUnavailable s -> cameraUnavailable (closeCamera s).
Proof.
  intros H. pose proof (cameraUnavailable_stopCamera s H) as Hcam.
  unfold camera in Hcam. injection Hcam as H1 H2 H3 H4 H5 H6.
  destruct H as [Hapi [Hpending [Hstream [Hlive [Herr Hopen]]]]].
  unfold cameraUnavailable, closeCamera.
  cbn [getUserMedia pendingMedia cameraStream liveTracks cameraError
       isCameraOpen set_isCameraOpen].
  repeat split; congruence.
Qed.

Lemma cameraUnavailable_openCamera (s : State) :
  cameraUnavailable s -> cameraUnavailable (openCamera s).
Proof.
  intros [Hapi [Hpending [Hstream [Hlive _]]]].
  destruct s as [st file species conf open err video stream mnt api al ts
                   pm pb live].
  cbn in Hapi, Hpending, Hstream, Hlive. subst api pm stream live.
  unfold cameraUnavailable, openCamera, startCamera, flush.
  destruct video; cbn; repeat split; auto.
Qed.

Lemma step_cameraUnavailable (e : Event) (s s' : State) :
  step e s = Some s' -> cameraUnavailable s -> cameraUnavailable s'.
Proof.
  intros Hstep H.
  destruct e; cbn [step] in Hstep; unfold guard in Hstep.
  - destruct (mounted s); [ | discriminate]. injection Hstep as <-.
    apply (cameraUnavailable_camera s); [ | exact H].
    rewrite camera_flush. apply camera_handleFiles.
  - destruct (mounted s); [ | discriminate]. injection Hstep as <-.
    apply (cameraUnavailable_camera (openCamera s)); [apply camera_flush | ].
    apply cameraUnavailable_openCamera. exact H.
  - destruct (mounted s && isCameraOpen s); [ | discriminate].
    injection Hstep as <-.
    apply (cameraUnavailable_camera (closeCamera s)); [apply camera_flush | ].
    apply cameraUnavailable_closeCamera. exact H.
  - destruct (mounted s && isCameraOpen s); [ | discriminate].
    injection Hstep as <-.
    apply (cameraUnavailable_camera s); [ | exact H].
    rewrite camera_flush. apply camera_captureFromCamera.
  - destruct (pendingBlobs s) as [| n]; [discriminate | ].
    injection Hstep as <-.
    apply (cameraUnavailable_camera (blobEncoded blob (set_pendingBlobs n s)));
      [apply camera_flush | ].
    unfold blobEncoded. destruct blob; cbn [negb]; [ | exact H].
    apply cameraUnavailable_closeCamera.
    apply (cameraUnavailable_camera s); [ | exact H].
    apply (camera_handleFiles (Some [capturedFile]) (set_pendingBlobs n s)).
  - destruct H as [_ [Hpending _]]. rewrite Hpending in Hstep.
    destruct n; discriminate.
  - destruct (timers s) as [| t rest]; [discriminate | ].
    injection Hstep as <-.
    apply (cameraUnavailable_camera s); [ | exact H].
    rewrite camera_flush. destruct t. reflexivity.
  - destruct (mounted s); [ | discriminate]. injection Hstep as <-.
    apply (cameraUnavailable_camera (stopCamera s));
      [reflexivity | ].
    apply (cameraUnavailable_camera s); [ | exact H].
    apply cameraUnavailable_stopCamera. exact H.
Qed.

Lemma run_cameraUnavailable (es : list Event) :
  forall s s', run es s = Some s' -> cameraUnavailable s -> cameraUnavailable s'.
Proof.
  induction es as [| e es IH]; intros s s' Hrun H; cbn [run] in Hrun.
  - injection Hrun as <-. exact H.
  - destruct (step e s) as [s1 | ] eqn:Hstep; [ | discriminate].
    apply (IH s1 s' Hrun). apply (step_cameraUnavailable e s s1 Hstep H).
Qed.

(** X6. In a browser without [getUserMedia] the view never asks for the
    camera: along every run no call is pending, no stream is stored and
    no track is live, and whenever the overlay is open it shows
    "Camera not supported in this browser.". *)
Theorem unsupported_browser_never_requests (es : list Event) (s : State) :
  run es (init false) = Some s ->
  pendingMedia s = [] /\
  cameraStream s = None /\
  liveTracks s = [] /\
  (overlay s = OverlayHidden \/
   overlay s = OverlayShown (Some "Camera not supported in this browser.")).
Proof.
  intros Hrun.
  assert (H : cameraUnavailable s).
  { apply (run_cameraUnavailable es (init false) s Hrun).
    unfold cameraUnavailable. cbn. repeat split; auto. discriminate. }
  destruct H as [_ [Hpending [Hstream [Hlive [_ Hopen]]]]].
  repeat split; try assumption.
  unfold overlay. destruct (isCameraOpen s); [ | left; reflexivity].
  right. rewrite (Hopen eq_refl). reflexivity.
Qed.

Lemma unsupported_browser_never_requests_witness :
  option_map overlay
    (run [ClickOpenCamera; ClickCapture 0 0 true; ClickCancel; ClickOpenCamera]
       (init false))
  = Some (OverlayShown (Some "Camera not supported in this browser.")) /\
  option_map pendingMedia
    (run [ClickOpenCamera; ClickCapture 0 0 true; ClickCancel; ClickOpenCamera]
       (init false))
  = Some [].
Proof.
  destruct (run [ClickOpenCamera; ClickCapture 0 0 true; ClickCancel;
                 ClickOpenCamera] (init false)) as [s | ] eqn:Hrun;
    [ | vm_compute in Hrun; discriminate].
  destruct (unsupported_browser_never_requests _ s Hrun)
    as [Hpending [_ [_ Hoverlay]]].
  cbn [option_map]. rewrite Hpending. split; [ | reflexivity].
  destruct Hoverlay as [H | H]; [ | rewrite H; reflexivity].
  exfalso. vm_compute in Hrun. injection Hrun as <-. discriminate H.
Defined.

(** X7. A stream that arrives while the overlay is open is stored and
    shown in the video element, whichever call of the chain it answers;
    when no track was live before, a click on "Cancel" and the unmounting
    of the view both stop every track and forget the stream. *)
Theorem arrived_stream_is_released
    (s : State) (n : nat) (a : Attempt) (v : Video) (st : MediaStream) :
  nth_error (pendingMedia s) n = Some a ->
  mounted s = true ->
  isCameraOpen s = true ->
  videoRef s = Some v ->
  liveTracks s = [] ->
  exists s1,
    step (MediaSettled n (Resolved (Some st))) s = Some s1 /\
    cameraStream s1 = Some st /\
    videoRef s1 = Some (mkVideo (Some st)) /\
    liveTracks s1 = getTracks st /\
    cameraError s1 = cameraError s /\
    List.length (pendingMedia s1) = pred (List.length (pendingMedia s)) /\
    forall e, e = ClickCancel \/ e = Unmount ->
              exists s2,
                step e s1 = Some s2 /\
                liveTracks s2 = [] /\ cameraStream s2 = None.
Proof.
  intros Hpending Hmounted Hopen Hvideo Hlive.
  cbn [step]. rewrite Hpending.
  eexists. split; [reflexivity | ].
  set (rest := (firstn n (pendingMedia s) ++ skipn (S n) (pendingMedia s))%list).
  set (s1 := flush (resumeCamera a (Resolved (Some st)) (set_pendingMedia rest s))).
  assert (Hs1 : s1 = mkState (stage s) (selectedFileName s) (predictedSpecies s)
                       (confidence s) true (cameraError s)
                       (Some (mkVideo (Some st))) (Some st)
                       true (getUserMedia s) (alerts s) (timers s) rest
                       (pendingBlobs s) (getTracks st)).
  { subst s1. unfold resumeCamera, withStream, acquire, flush.
    destruct s as [sg file species conf open err video stream mnt api al ts
                     pm pb live].
    cbn in Hmounted, Hopen, Hvideo, Hlive. subst mnt open video live.
    reflexivity. }
  assert (Hmounted1 : mounted s1 = true) by (rewrite Hs1; reflexivity).
  assert (Hopen1 : isCameraOpen s1 = true) by (rewrite Hs1; reflexivity).
  split; [rewrite Hs1; reflexivity | ].
  split; [rewrite Hs1; reflexivity | ].
  split; [rewrite Hs1; reflexivity | ].
  split; [rewrite Hs1; reflexivity | ].
  split.
  - rewrite Hs1. cbn [pendingMedia]. subst rest.
    rewrite length_app, length_firstn, length_skipn.
    assert (n < List.length (pendingMedia s))%nat
      by (apply nth_error_Some; congruence).
    lia.
  - assert (Hreleased : liveTracks (stopCamera s1) = [] /\
                        cameraStream (stopCamera s1) = None).
    { apply LiveFacts.stopCamera_releases_stored_stream.
      intros t Ht. exists st. rewrite Hs1 in *. split; [reflexivity | exact Ht]. }
    destruct Hreleased as [Hnone Hforgot].
    intros e [-> | ->]; cbn [step]; rewrite Hmounted1, ?Hopen1;
      cbn [andb guard]; eexists; (split; [reflexivity | ]).
    + pose proof (LiveFacts.flush_frame (closeCamera s1)) as Hflush.
      decompose [and] Hflush. clear Hflush.
      split.
      * transitivity (liveTracks (closeCamera s1)); [assumption | exact Hnone].
      * transitivity (cameraStream (closeCamera s1)); [assumption | exact Hforgot].
    + split; [exact Hnone | exact Hforgot].
Qed.

Lemma arrived_stream_is_released_witness :
  exists s1 s2,
    step (MediaSettled 0 (Resolved (Some (mkStream [1%nat; 2%nat]))))
      (flush (openCamera (init true))) = Some s1 /\
    liveTracks s1 = [1%nat; 2%nat] /\
    step ClickCancel s1 = Some s2 /\
    liveTracks s2 = [].
Proof.
  destruct (arrived_stream_is_released (flush (openCamera (init true))) 0 Ideal
              (mkVideo None) (mkStream [1%nat; 2%nat])
              eq_refl eq_refl eq_refl eq_refl eq_refl)
    as [s1 [Hstep [_ [_ [Hlive [_ [_ Hrelease]]]]]]].
  destruct (Hrelease ClickCancel (or_introl eq_refl)) as [s2 [Hcancel [Hnone _]]].
  exists s1, s2. repeat split; assumption.
Defined.

(** *** A view that is unmounted while the camera is being acquired *)

Lemma resumeCamera_keeps (a : Attempt) (r : Settled) (s : State) :
  mounted (resumeCamera a r s) = mounted s /\
  pendingBlobs (resumeCamera a r s) = pendingBlobs s /\
  forall t, In t (liveTracks s) -> In t (liveTracks (resumeCamera a r s)).
Proof.
  destruct r as [[st | ] | err]; [ | | destruct a];
    unfold resumeCamera, withStream, acquire, requestMedia;
    try (repeat split; [intros t Ht; exact Ht]).
  cbn [set_cameraStream videoRef set_liveTracks].
  destruct (videoRef s); cbn [mounted pendingBlobs liveTracks set_videoRef
                              set_cameraStream set_liveTracks];
    (repeat split; [intros t Ht; apply in_or_app; left; exact Ht]).
Qed.

Lemma flush_keeps (s : State) :
  mounted (flush s) = mounted s /\
  pendingBlobs (flush s) = pendingBlobs s /\
  liveTracks (flush s) = liveTracks s /\
  cameraStream (flush s) = cameraStream s.
Proof.
  unfold flush. destruct (isCameraOpen s); [destruct (videoRef s) | ];
    repeat split.
Qed.

Lemma settled_abandoned (t : Track) (a : Attempt) (r : Settled) (s : State) :
  abandoned t s -> abandoned t (flush (resumeCamera a r s)).
Proof.
  intros [Hgone [Hblobs Hlive]].
  destruct (flush_keeps (resumeCamera a r s)) as [Hm [Hb [Hl _]]].
  destruct (resumeCamera_keeps a r s) as [Hm' [Hb' Hl']].
  unfold abandoned. rewrite Hm, Hb, Hl, Hm', Hb'.
  repeat split; [exact Hgone | exact Hblobs | apply Hl'; exact Hlive].
Qed.

Lemma step_abandoned (t : Track) (e : Event) (s s' : State) :
  step e s = Some s' -> abandoned t s -> abandoned t s'.
Proof.
  intros Hstep H. pose proof H as [Hgone [Hblobs Hlive]].
  destruct e as [files | | | w h c | blob | n r | | ]; unfold step in Hstep;
    rewrite ?Hgone, ?Hblobs in Hstep; cbn [andb guard] in Hstep;
    try discriminate.
  - destruct (nth_error (pendingMedia s) n) as [a | ]; [ | discriminate].
    injection Hstep as <-.
    apply (settled_abandoned t a r (set_pendingMedia _ s)). exact H.
  - destruct (timers s) as [| tm rest]; [discriminate | ].
    injection Hstep as <-.
    destruct (flush_keeps (runTimer tm (set_timers rest s))) as [Hm [Hb [Hl _]]].
    unfold abandoned. rewrite Hm, Hb, Hl. destruct tm.
    repeat split; [exact Hgone | exact Hblobs | exact Hlive].
Qed.

Lemma run_abandoned (t : Track) (es : list Event) :
  forall s s', run es s = Some s' -> abandoned t s -> abandoned t s'.
Proof.
  induction es as [| e es IH]; intros s s' Hrun H; cbn [run] in Hrun.
  - injection Hrun as <-. exact H.
  - destruct (step e s) as [s1 | ] eqn:Hstep; [ | discriminate].
    apply (IH s1 s' Hrun). apply (step_abandoned t e s s1 Hstep H).
Qed.

(** X18. When the view is unmounted while a [getUserMedia] call is
    pending and no captured frame is being encoded, [onBeforeUnmount]
    finds no stream to stop; the stream the call resolves with is stored
    by the continuation of [startCamera], and no event of the view that
    can still happen stops any of its tracks. *)
Theorem stream_after_unmount_is_never_stopped
    (s : State) (n : nat) (a : Attempt) (st : MediaStream) :
  mounted s = true ->
  pendingBlobs s = 0%nat ->
  nth_error (pendingMedia s) n = Some a ->
  exists s1 s2,
    step Unmount s = Some s1 /\
    step (MediaSettled n (Resolved (Some st))) s1 = Some s2 /\
    cameraStream s2 = Some st /\
    forall es s3, run es s2 = Some s3 ->
                  forall t, In t (getTracks st) -> In t (liveTracks s3).
Proof.
  intros Hmounted Hblobs Hpending.
  exists (unmount s).
  assert (Hgone : mounted (unmount s) = false) by reflexivity.
  assert (Hblobs1 : pendingBlobs (unmount s) = 0%nat).
  { rewrite <- Hblobs. unfold unmount, stopCamera.
    destruct (cameraStream s); [ | destruct (videoRef s); reflexivity].
    cbn [videoRef set_cameraStream stopTracks set_liveTracks].
    destruct (videoRef s); reflexivity. }
  assert (Hpending1 : pendingMedia (unmount s) = pendingMedia s).
  { unfold unmount, stopCamera.
    destruct (cameraStream s); [ | destruct (videoRef s); reflexivity].
    cbn [videoRef set_cameraStream stopTracks set_liveTracks].
    destruct (videoRef s); reflexivity. }
  assert (Hnth : nth_error (pendingMedia (unmount s)) n = Some a)
    by (rewrite Hpending1; exact Hpending).
  set (rest := (firstn n (pendingMedia (unmount s)) ++
                skipn (S n) (pendingMedia (unmount s)))%list).
  exists (flush (resumeCamera a (Resolved (Some st))
                   (set_pendingMedia rest (unmount s)))).
  split; [cbn [step]; rewrite Hmounted; reflexivity | ].
  split; [unfold step; rewrite Hnth; reflexivity | ].
  set (s2 := flush (resumeCamera a (Resolved (Some st))
                      (set_pendingMedia rest (unmount s)))).
  assert (Hs2 : mounted s2 = false /\ pendingBlobs s2 = 0%nat /\
                cameraStream s2 = Some st /\
                forall t, In t (getTracks st) -> In t (liveTracks s2)).
  { subst s2.
    destruct (flush_keeps (resumeCamera a (Resolved (Some st))
                             (set_pendingMedia rest (unmount s))))
      as [Hm [Hb [Hl Hc]]].
    rewrite Hm, Hb, Hl, Hc.
    destruct (resumeCamera_keeps a (Resolved (Some st))
                (set_pendingMedia rest (unmount s))) as [Hm' [Hb' _]].
    rewrite Hm', Hb'.
    split; [exact Hgone | ]. split; [exact Hblobs1 | ].
    unfold resumeCamera, withStream, acquire.
    cbn [set_cameraStream videoRef set_liveTracks set_pendingMedia unmount
         set_mounted set_videoRef].
    split; [reflexivity | ].
    intros t Ht. cbn [liveTracks]. apply in_or_app. right. exact Ht. }
  destruct Hs2 as [Hm2 [Hb2 [Hc2 Hl2]]].
  split; [exact Hc2 | ].
  intros es s3 Hrun t Ht.
  destruct (run_abandoned t es s2 s3 Hrun) as [_ [_ Hlive]];
    [repeat split; [exact Hm2 | exact Hb2 | apply Hl2; exact Ht] | exact Hlive].
Qed.

Lemma stream_after_unmount_is_never_stopped_witness :
  exists s3,
    run [Unmount; MediaSettled 0 (Resolved (Some (mkStream [1%nat; 2%nat])));
         TimerFired]
      (runClassification acquiring) = Some s3 /\
    In 1%nat (liveTracks s3) /\ In 2%nat (liveTracks s3).
Proof.
  destruct (stream_after_unmount_is_never_stopped
              (runClassification acquiring) 0 Ideal (mkStream [1%nat; 2%nat])
              eq_refl eq_refl eq_refl)
    as [s1 [s2 [Hunmount [Hsettled [_ Hlive]]]]].
  destruct (run [TimerFired] s2) as [s3 | ] eqn:Hrun.
  - exists s3. cbn [run]. rewrite Hunmount, Hsettled.
    split; [exact Hrun | ].
    split; apply (Hlive [TimerFired] s3 Hrun); cbn; auto.
  - exfalso. vm_compute in Hunmount. injection Hunmount as <-.
    vm_compute in Hsettled. injection Hsettled as <-.
    vm_compute in Hrun. discriminate.
Defined.




End LiveExtra.

(** * More properties of the benchmark view *)
Module BenchmarkExtra.
Import Dom Benchmark.

(** *** Path labels *)

Lemma formatPathLabel_no_separator (raw : string) :
  JS.hasSeparator raw = false -> formatPathLabel raw = raw.
Proof.
  intros H. unfold formatPathLabel.
  rewrite (JSFacts.splitPath_no_separator raw H). cbn [last].
  destruct raw; reflexivity.
Qed.

Lemma formatPathLabel_fixed (raw : string) :
  formatPathLabel (formatPathLabel raw) = formatPathLabel raw.
Proof.
  rewrite (BenchmarkFacts.formatPathLabel_last raw).
  destruct (JSFacts.splitPath_last raw) as [Hsep _].
  destruct (last (JS.splitPath raw) "") as [| c part] eqn:Hlast.
  - rewrite BenchmarkFacts.formatPathLabel_last, Hlast. reflexivity.
  - apply formatPathLabel_no_separator. exact Hsep.
Qed.

(** X8. The label of a path is a suffix of the path; it is the path
    itself when the path has no separator; it is empty only for the
    empty path; and taking the label of a label changes nothing. *)
Theorem formatPathLabel_is_a_stable_suffix (raw : string) :
  (exists before, raw = before ++ formatPathLabel raw) /\
  (JS.hasSeparator raw = false -> formatPathLabel raw = raw) /\
  (formatPathLabel raw = "" <-> raw = "") /\
  formatPathLabel (formatPathLabel raw) = formatPathLabel raw.
Proof.
  split; [ | split; [ | split]].
  - rewrite (BenchmarkFacts.formatPathLabel_last raw).
    destruct (JSFacts.splitPath_last raw) as [_ [before [Hraw _]]].
    destruct (last (JS.splitPath raw) "") as [| c part].
    + exists "". reflexivity.
    + exists before. exact Hraw.
  - apply formatPathLabel_no_separator.
  - rewrite (BenchmarkFacts.formatPathLabel_last raw).
    destruct (last (JS.splitPath raw) "") as [| c part] eqn:Hlast.
    + tauto.
    + split; [discriminate | intros ->]. discriminate Hlast.
  - apply formatPathLabel_fixed.
Qed.

(** *** Attaching a folder, again *)

Lemma chosenFiles_not_nil (first : File) (rest : list File) :
  chosenFiles (first :: rest) <> [].
Proof.
  unfold chosenFiles.
  destruct (existsb isImageFile (first :: rest)) eqn:Hany; [ | discriminate].
  apply existsb_exists in Hany as [f [Hin Himage]].
  intros Hnil.
  assert (Hf : In f (filter isImageFile (first :: rest)))
    by (apply filter_In; split; assumption).
  rewrite Hnil in Hf. exact Hf.
Qed.

Lemma put_put {A : Type} (k : DatasetKey) (v w : A) (m : ByKey A) :
  put k v (put k w m) = put k v m.
Proof. destruct k; reflexivity. Qed.

(** The state [handleDatasetFiles] leaves for a folder with a file, as
    three writes. *)
Lemma handleDatasetFiles_writes (first : File) (rest : list File) (s : State) :
  exists sample others,
    firstn 3 (chosenFiles (first :: rest)) = sample :: others /\
    handleDatasetFiles (Some (first :: rest)) s =
    set_datasetFileNames
      (put (targetKey first s) (Some (formatPathLabel (rawPath sample)))
         (datasetFileNames s))
      (set_datasetSampleNames
         (put (targetKey first s)
            (map (fun f => formatPathLabel (rawPath f)) (sample :: others))
            (datasetSampleNames s))
         (set_selectedDatasetKey (targetKey first s) s)).
Proof.
  pose proof (chosenFiles_not_nil first rest) as Hchosen.
  unfold handleDatasetFiles, targetKey. cbv zeta.
  rewrite BenchmarkFacts.filter_nonempty. fold (chosenFiles (first :: rest)).
  destruct (chosenFiles (first :: rest)) as [| sample more] eqn:Hsome;
    [contradiction | ].
  exists sample, (firstn 2 more). split; [reflexivity | ].
  cbn [firstn].
  destruct (inferDatasetKeyFromPath (rawPath first)); reflexivity.
Qed.

(** X9. Attaching the same folder a second time changes nothing: the
    selection, the sample names and the label it wrote are written
    again with the same values. *)
Theorem attaching_twice_is_attaching_once (files : FileList) (s : State) :
  handleDatasetFiles files (handleDatasetFiles files s)
  = handleDatasetFiles files s.
Proof.
  destruct files as [[| first rest] | ]; try reflexivity.
  destruct (handleDatasetFiles_writes first rest s)
    as [sample [others [Hsamples Hs1]]].
  destruct (handleDatasetFiles_writes first rest
              (handleDatasetFiles (Some (first :: rest)) s))
    as [sample' [others' [Hsamples' Hs2]]].
  rewrite Hsamples in Hsamples'. injection Hsamples' as <- <-.
  assert (Htarget : targetKey first (handleDatasetFiles (Some (first :: rest)) s)
                    = targetKey first s).
  { unfold targetKey.
    destruct (inferDatasetKeyFromPath (rawPath first)) eqn:Hinferred;
      [reflexivity | ].
    rewrite BenchmarkFacts.handleDatasetFiles_selection.
    unfold targetKey. rewrite Hinferred. reflexivity. }
  rewrite Hs2, Htarget. rewrite Hs1.
  cbn [datasetFileNames datasetSampleNames set_datasetFileNames
       set_datasetSampleNames set_selectedDatasetKey].
  rewrite !put_put. reflexivity.
Qed.

(** X10. After a folder with a file is attached, the selection is the
    target dataset; the names stored for it are as many as the chosen
    files, at least one and at most three; the label of the dataset is
    the first of these names; the labels of the other datasets are
    untouched; and the sample buttons shown are exactly the stored
    names. *)
Theorem attached_folder_is_shown (first : File) (rest : list File) (s : State) :
  let files := first :: rest in
  let s1 := handleDatasetFiles (Some files) s in
  let stored := get (selectedDatasetKey s1) (datasetSampleNames s1) in
  selectedDatasetKey s1 = targetKey first s /\
  List.length stored = Nat.min 3 (List.length (chosenFiles files)) /\
  (1 <= List.length stored)%nat /\
  get (selectedDatasetKey s1) (datasetFileNames s1) = hd_error stored /\
  (forall k, k <> targetKey first s ->
             get k (datasetFileNames s1) = get k (datasetFileNames s)) /\
  (forall name, sampleShown name s1 = true <-> In name stored).
Proof.
  intros files s1 stored.
  destruct (handleDatasetFiles_writes first rest s)
    as [sample [others [Hsamples Hs1]]].
  fold files in Hsamples, Hs1. fold s1 in Hs1.
  assert (Hkey : selectedDatasetKey s1 = targetKey first s)
    by (rewrite Hs1; reflexivity).
  assert (Hstored : stored = map (fun f => formatPathLabel (rawPath f))
                               (firstn 3 (chosenFiles files))).
  { subst stored. rewrite Hkey, Hs1.
    cbn [datasetSampleNames set_datasetFileNames set_datasetSampleNames].
    rewrite BenchmarkFacts.get_put_same, Hsamples. reflexivity. }
  split; [exact Hkey | ].
  split; [rewrite Hstored, length_map, length_firstn; reflexivity | ].
  split; [rewrite Hstored, Hsamples; cbn; lia | ].
  split; [ | split].
  - rewrite Hstored, Hsamples, Hkey, Hs1.
    cbn [datasetFileNames set_datasetFileNames].
    rewrite BenchmarkFacts.get_put_same. reflexivity.
  - intros k Hk. rewrite Hs1. cbn [datasetFileNames set_datasetFileNames].
    apply BenchmarkFacts.get_put_other. exact Hk.
  - intros name. unfold sampleShown. fold stored.
    rewrite existsb_exists. split.
    + intros [x [Hin Heq]]. apply String.eqb_eq in Heq. subst x. exact Hin.
    + intros Hin. exists name. split; [exact Hin | apply String.eqb_refl].
Qed.

(** *** What an event can write *)

Lemma animate_writes (start time : Z) (s : State) :
  exists progress starts,
    animate start time s
    = set_frames starts (set_optimizationProgress progress s).
Proof.
  unfold animate. cbv zeta.
  match goal with
  | |- context [if ?c then _ else _] => destruct c
  end.
  - exists (Qmin 1 (inject_Z (time - start) / inject_Z 5000)),
      (frames s ++ [start])%list.
    reflexivity.
  - exists (Qmin 1 (inject_Z (time - start) / inject_Z 5000)), (frames s).
    destruct s; reflexivity.
Qed.

Lemma frame_writes (starts : list Z) :
  forall s : State,
  exists progress pending,
    fold_left (fun st start => animate start (now st) st) starts s
    = set_frames pending (set_optimizationProgress progress s).
Proof.
  induction starts as [| start starts IH]; intros s; cbn [fold_left].
  - exists (optimizationProgress s), (frames s). destruct s; reflexivity.
  - destruct (animate_writes start (now s) s) as [p1 [f1 H1]].
    destruct (IH (animate start (now s) s)) as [p [f H]].
    exists p, f. rewrite H, H1. reflexivity.
Qed.

(** The eight ways an event changes the state. *)
Lemma step_shape (e : Event) (s s' : State) :
  step e s = Some s' ->
  (exists b, s' = set_isDatasetDragging b s) \/
  (exists k, s' = set_selectedDatasetKey k s) \/
  (exists b first rest,
      s' = handleDatasetFiles (Some (first :: rest)) (set_isDatasetDragging b s)) \/
  (exists name,
      e = ClickSample name /\ sampleShown name s = true /\
      s' = runSampleFromDataset name s) \/
  s' = set_compareBaseline (negb (compareBaseline s)) s \/
  (exists d, mayElapse d s = true /\ s' = set_now (now s + d) s) \/
  (exists due t rest,
      e = TimerFired /\ timers s = (due, t) :: rest /\
      s' = runTimer t (set_now (Z.max (now s) due) (set_timers rest s))) \/
  (frames s <> [] /\
   s' = fold_left (fun st start => animate start (now st) st) (frames s)
          (set_frames [] s)).
Proof.
  intros Hstep.
  destruct e as [k | | | files | files | sample | | d | | ];
    cbn [step] in Hstep; unfold guard in Hstep.
  - injection Hstep as <-. right. left. eauto.
  - injection Hstep as <-. left. eauto.
  - injection Hstep as <-. left. eauto.
  - injection Hstep as <-. unfold onDatasetDrop.
    destruct files as [[| first rest] | ].
    + left. exists false. reflexivity.
    + right. right. left. eauto.
    + left. exists false. reflexivity.
  - injection Hstep as <-. unfold onDatasetChange.
    destruct files as [[| first rest] | ].
    + left. exists (isDatasetDragging s). destruct s; reflexivity.
    + right. right. left. exists (isDatasetDragging s), first, rest.
      f_equal. destruct s; reflexivity.
    + left. exists (isDatasetDragging s). destruct s; reflexivity.
  - destruct (sampleShown sample s) eqn:Hshown; [ | discriminate].
    injection Hstep as <-. right. right. right. left.
    exists sample. split; [reflexivity | split; [exact Hshown | reflexivity]].
  - injection Hstep as <-. right. right. right. right. left. reflexivity.
  - destruct (mayElapse d s) eqn:Hmay; [ | discriminate].
    injection Hstep as <-. do 5 right. left. eauto.
  - destruct (timers s) as [| [due t] rest] eqn:Htimers; [discriminate | ].
    injection Hstep as <-. do 6 right. left.
    exists due, t, rest. repeat split.
  - destruct (frames s) as [| start starts] eqn:Hframes; [discriminate | ].
    injection Hstep as <-. do 7 right.
    split; [discriminate | reflexivity].
Qed.

(** What a frame writes: the progress and the pending callbacks. *)
Lemma frame_step_writes (s : State) :
  exists progress pending,
    fold_left (fun st start => animate start (now st) st) (frames s)
      (set_frames [] s)
    = set_frames pending (set_optimizationProgress progress s).
Proof.
  destruct (frame_writes (frames s) (set_frames [] s)) as [p [f H]].
  exists p, f. rewrite H. reflexivity.
Qed.

Lemma run_invariant (P : State -> Prop) :
  (forall e s s', step e s = Some s' -> P s -> P s') ->
  forall es s s', run es s = Some s' -> P s -> P s'.
Proof.
  intros Hstep es.
  induction es as [| e es IH]; intros s s' Hrun H; cbn [run] in Hrun.
  - injection Hrun as <-. exact H.
  - destruct (step e s) as [s1 | ] eqn:He; [ | discriminate].
    apply (IH s1 s' Hrun). apply (Hstep e s s1 He H).
Qed.

(** Takes the cases of [step_shape] for the event of [Hstep]. *)
Ltac shapes Hstep :=
  let b := fresh "b" in
  let k := fresh "k" in
  let first := fresh "first" in
  let rest := fresh "rest" in
  let sample := fresh "sample" in
  let Hshown := fresh "Hshown" in
  let d := fresh "d" in
  let Hd := fresh "Hd" in
  let due := fresh "due" in
  let t := fresh "t" in
  let Htimers := fresh "Htimers" in
  let Hframes := fresh "Hframes" in
  destruct (step_shape _ _ _ Hstep)
    as [[b ->] | [[k ->] | [[b [first [rest ->]]] |
        [[sample [? [Hshown ->]]] |
        [-> | [[d [Hd ->]] | [[due [t [rest [? [Htimers ->]]]]] |
        [Hframes ->]]]]]]]].

Lemma get_put_cases {A : Type} (k t : DatasetKey) (v : A) (m : ByKey A) :
  get k (put t v m) = v \/ get k (put t v m) = get k m.
Proof. destruct k, t; auto. Qed.

Lemma step_namesAreLabels (e : Event) (s s' : State) :
  step e s = Some s' -> namesAreLabels s -> namesAreLabels s'.
Proof.
  intros Hstep H. shapes Hstep; try exact H.
  - destruct (handleDatasetFiles_writes first rest (set_isDatasetDragging b s))
      as [sample [others [_ ->]]].
    intros k name.
    cbn [datasetSampleNames set_datasetFileNames set_datasetSampleNames
         set_selectedDatasetKey set_isDatasetDragging].
    destruct (get_put_cases k (targetKey first (set_isDatasetDragging b s))
                (map (fun f => formatPathLabel (rawPath f)) (sample :: others))
                (datasetSampleNames s)) as [-> | ->].
    + intros Hin. apply in_map_iff in Hin as [f [<- _]].
      apply formatPathLabel_fixed.
    + apply H.
  - destruct t; exact H.
  - destruct (frame_step_writes s) as [p [f ->]]. exact H.
Qed.

(** X11. Along every run, a click on a sample button selects the name
    written on the button: the names stored are labels already, so the
    label [runSampleFromDataset] takes of the name is the name; the click
    empties the result and sets the stage to uploading. *)
Theorem clicked_sample_is_selected (es : list Event) (s : State) (name : string) :
  run es init = Some s ->
  sampleShown name s = true ->
  exists s',
    step (ClickSample name) s = Some s' /\
    selectedFileName s' = Some name /\
    stage s' = uploading /\
    predictedSpecies s' = None /\ confidence s' = None /\
    featureBefore s' = None /\ featureAfter s' = None.
Proof.
  intros Hrun Hshown.
  assert (H : namesAreLabels s).
  { apply (run_invariant namesAreLabels step_namesAreLabels es init s Hrun).
    intros k name' Hin. destruct k; contradiction. }
  cbn [step]. rewrite Hshown. eexists. split; [reflexivity | ].
  repeat split.
  unfold sampleShown in Hshown.
  apply existsb_exists in Hshown as [x [Hin Heq]].
  apply String.eqb_eq in Heq. subst x.
  cbn. rewrite (H _ _ Hin). reflexivity.
Qed.

Lemma clicked_sample_is_selected_witness :
  exists s',
    step (ClickSample "leaf_01.jpg") attached = Some s' /\
    selectedFileName s' = Some "leaf_01.jpg".
Proof.
  destruct (clicked_sample_is_selected [Change (Some oneLeaf)] attached
              "leaf_01.jpg" eq_refl eq_refl)
    as [s' [Hstep [Hname _]]].
  exists s'. split; assumption.
Defined.

Lemma step_started (e : Event) (s s' : State) :
  step e s = Some s' -> started s -> started s'.
Proof.
  intros Hstep H. shapes Hstep; try exact H.
  - destruct (handleDatasetFiles_writes first rest (set_isDatasetDragging b s))
      as [sample [others [_ ->]]].
    exact H.
  - split; [discriminate | ]. intros _. discriminate.
  - destruct H as [Hidle Hbusy].
    assert (Hstage : stage s <> idle).
    { intros Hs. destruct (Hidle Hs) as [_ Hnone]. congruence. }
    destruct t; (split; [discriminate | intros _; exact (Hbusy Hstage)]).
  - destruct (frame_step_writes s) as [p [f ->]]. exact H.
Qed.

(** X12. The third text of the results card, "Ready for next image.",
    is never shown, and the stage is idle exactly as long as no sample
    has been selected: along every run the card asks for a leaf while the
    stage is idle and never returns to idle afterwards. *)
Theorem ready_for_next_is_never_shown (es : list Event) (s : State) :
  run es init = Some s ->
  placeholder s <> Some ReadyForNext /\
  (stage s = idle <-> selectedFileName s = None) /\
  (stage s = idle -> placeholder s = Some AskForLeaf).
Proof.
  intros Hrun.
  assert (H : started s).
  { apply (run_invariant started step_started es init s Hrun).
    split; [intros _; split; reflexivity | intros Hne; contradiction]. }
  destruct H as [Hidle Hbusy].
  unfold placeholder, processing.
  destruct (stage s) eqn:Hstage.
  - destruct (Hidle eq_refl) as [-> _].
    split; [discriminate | split; [tauto | reflexivity]].
  - assert (Hname : selectedFileName s <> None) by (apply Hbusy; discriminate).
    split; [ | split; [split; [discriminate | contradiction] | discriminate]].
    destruct (selectedFileName s) as [[| c r] | ]; discriminate.
  - assert (Hname : selectedFileName s <> None) by (apply Hbusy; discriminate).
    split; [ | split; [split; [discriminate | contradiction] | discriminate]].
    destruct (selectedFileName s) as [[| c r] | ]; discriminate.
  - assert (Hname : selectedFileName s <> None) by (apply Hbusy; discriminate).
    split; [ | split; [split; [discriminate | contradiction] | discriminate]].
    destruct (selectedFileName s) as [[| c r] | ]; discriminate.
  - assert (Hname : selectedFileName s <> None) by (apply Hbusy; discriminate).
    split; [discriminate | ].
    split; [split; [discriminate | contradiction] | discriminate].
Qed.

Lemma ready_for_next_is_never_shown_witness :
  option_map placeholder (run twoRuns init) <> Some (Some ReadyForNext).
Proof.
  destruct (run twoRuns init) as [s | ] eqn:Hrun; [ | discriminate].
  destruct (ready_for_next_is_never_shown twoRuns s Hrun) as [H _].
  cbn [option_map]. intros Heq. injection Heq as Heq. exact (H Heq).
Defined.

(** *** The history rows *)

Lemma firstn_seq (k a n : nat) : firstn k (seq a n) = seq a (Nat.min k n).
Proof.
  revert a n. induction k as [| k IH]; intros a n; [reflexivity | ].
  destruct n as [| n]; [reflexivity | ].
  cbn. rewrite IH. reflexivity.
Qed.

Lemma firstn_idsFrom (k : nat) (c : Z) (n : nat) :
  firstn k (idsFrom c n) = idsFrom c (Nat.min k n).
Proof. unfold idsFrom. rewrite firstn_map, firstn_seq. reflexivity. Qed.

Lemma idsFrom_next (c : Z) (n : nat) :
  (c + 1) :: idsFrom c n = idsFrom (c + 1) (S n).
Proof.
  unfold idsFrom. cbn [seq map]. f_equal; [lia | ].
  rewrite <- seq_shift, map_map.
  apply map_ext. intros i. lia.
Qed.

Lemma idsFrom_NoDup (c : Z) (n : nat) : NoDup (idsFrom c n).
Proof.
  unfold idsFrom. apply NoDup_map_NoDup_ForallPairs; [ | apply seq_NoDup].
  intros i j _ _ H. lia.
Qed.


Lemma step_numbered (e : Event) (s s' : State) :
  step e s = Some s' -> numbered s -> numbered s'.
Proof.
  intros Hstep H. shapes Hstep; try exact H.
  - destruct (handleDatasetFiles_writes first rest (set_isDatasetDragging b s))
      as [sample [others [_ ->]]].
    exact H.
  - destruct t; try exact H.
    destruct H as [Hids [Hlen Hpos]].
    set (s0 := set_now (Z.max (now s) due) (set_timers rest s)).
    destruct (BenchmarkFacts.optimizeDone_publishes s0)
      as [_ [_ [_ [_ [Hcounter [_ Hruns]]]]]].
    change (runTimer OptimizeDone s0) with (optimizeDone s0).
    unfold numbered. rewrite Hruns, Hcounter.
    change (previousRuns s0) with (previousRuns s).
    change (runCounter s0) with (runCounter s).
    rewrite <- firstn_map. cbn [map].
    unfold publishedSummary at 1. cbn [RunSummary.id].
    rewrite Hcounter. change (runCounter s0) with (runCounter s).
    rewrite Hids, idsFrom_next, firstn_idsFrom.
    rewrite length_firstn. cbn [List.length]. rewrite Hlen.
    replace (Z.to_nat (runCounter s + 1)) with (S (Z.to_nat (runCounter s)))
      by lia.
    split; [reflexivity | split; lia].
  - destruct (frame_step_writes s) as [p [f ->]]. exact H.
Qed.

Lemma passive_counter (e : Event) (s s' : State) :
  step e s = Some s' -> completesRun e s = false ->
  runCounter s' = runCounter s.
Proof.
  intros Hstep Hno.
  destruct e as [k | | | files | files | sample | | d | | ];
    cbn [step] in Hstep; unfold guard in Hstep.
  - injection Hstep as <-. reflexivity.
  - injection Hstep as <-. reflexivity.
  - injection Hstep as <-. reflexivity.
  - injection Hstep as <-. unfold onDatasetDrop.
    destruct files as [[| first rest] | ]; try reflexivity.
    destruct (handleDatasetFiles_writes first rest (set_isDatasetDragging false s))
      as [file [others [_ ->]]]. reflexivity.
  - injection Hstep as <-. unfold onDatasetChange.
    destruct files as [[| first rest] | ]; try reflexivity.
    destruct (handleDatasetFiles_writes first rest s)
      as [file [others [_ ->]]]. reflexivity.
  - destruct (sampleShown sample s); [ | discriminate].
    injection Hstep as <-. reflexivity.
  - injection Hstep as <-. reflexivity.
  - destruct (mayElapse d s); [ | discriminate].
    injection Hstep as <-. reflexivity.
  - unfold completesRun in Hno.
    destruct (timers s) as [| [due t] rest]; [discriminate | ].
    injection Hstep as <-. destruct t; [reflexivity | reflexivity | discriminate].
  - destruct (frames s) as [| start starts] eqn:Hframes; [discriminate | ].
    injection Hstep as <-.
    destruct (frame_writes (start :: starts) (set_frames [] s)) as [p [f H]].
    transitivity (runCounter (set_frames f (set_optimizationProgress p
                                              (set_frames [] s))));
      [f_equal; exact H | reflexivity].
Qed.

Lemma counter_counts (es : list Event) :
  forall (s s' : State) (earlier : list RunSummary.t),
    run es s = Some s' ->
    runCounter s' + Z.of_nat (List.length earlier)
    = runCounter s + Z.of_nat (List.length (completed es s earlier)).
Proof.
  induction es as [| e es IH]; intros s s' earlier Hrun;
    cbn [run completed] in *.
  - injection Hrun as <-. reflexivity.
  - destruct (step e s) as [s1 | ] eqn:Hstep; [ | discriminate].
    destruct (completesRun e s) eqn:Hdone.
    + pose proof (IH s1 s' (publishedSummary s1 :: earlier) Hrun) as Hrest.
      cbn [List.length] in Hrest.
      assert (Hnext : runCounter s1 = runCounter s + 1).
      { unfold completesRun in Hdone.
        destruct e; try discriminate.
        cbn [step] in Hstep.
        destruct (timers s) as [| [due t] rest]; [discriminate | ].
        destruct t; try discriminate.
        injection Hstep as <-. reflexivity. }
      lia.
    + pose proof (IH s1 s' earlier Hrun) as Hrest.
      rewrite (passive_counter e s s1 Hstep Hdone) in Hrest. exact Hrest.
Qed.

(** X13. Along every run, the rows of the history are numbered down by
    one from the run counter, which counts the completed runs: the ids
    are all different, the first row is the latest run, and there are as
    many rows as completed runs, up to four. *)
Theorem history_rows_are_numbered (es : list Event) (s : State) :
  run es init = Some s ->
  map RunSummary.id (previousRuns s)
  = idsFrom (runCounter s) (List.length (previousRuns s)) /\
  NoDup (map RunSummary.id (previousRuns s)) /\
  runCounter s = Z.of_nat (List.length (completed es init [])) /\
  List.length (previousRuns s)
  = Nat.min 4 (List.length (completed es init [])).
Proof.
  intros Hrun.
  assert (H : numbered s).
  { apply (run_invariant numbered step_numbered es init s Hrun).
    repeat split. cbn. lia. }
  destruct H as [Hids [Hlen Hpos]].
  pose proof (counter_counts es init s [] Hrun) as Hcount.
  cbn in Hcount.
  split; [exact Hids | split; [ | split]].
  - rewrite Hids. apply idsFrom_NoDup.
  - lia.
  - rewrite Hlen. f_equal. lia.
Qed.

Lemma history_rows_are_numbered_witness :
  option_map (fun s => map RunSummary.id (previousRuns s)) (run sixRuns init)
  = Some (idsFrom 6 4).
Proof.
  destruct (run sixRuns init) as [s | ] eqn:Hrun;
    [ | vm_compute in Hrun; discriminate].
  destruct (history_rows_are_numbered sixRuns s Hrun) as [Hids [_ [Hc Hlen]]].
  cbn [option_map]. rewrite Hids, Hlen, Hc. vm_compute. reflexivity.
Defined.

(** *** The result that is shown *)






(** *** The animation of the progress curve *)


(** One call of the animation callback. *)
Lemma animate_effect (start : Z) (s : State) :
  let s' := animate start (now s) s in
  frames s' =
    (frames s ++ if keepsAnimating (stage s) (now s) start then [start] else [])%list /\
  optimizationProgress s'
  = Qmin 1 (inject_Z (now s - start) / inject_Z 5000) /\
  stage s' = stage s /\ now s' = now s /\ timers s' = timers s.
Proof.
  unfold animate, keepsAnimating. cbv zeta.
  cbn [stage set_optimizationProgress].
  destruct ((now s - start <? 5000) &&
            match stage s with optimizing => true | _ => false end).
  - repeat split.
  - repeat split. cbn. rewrite app_nil_r. reflexivity.
Qed.

(** All the callbacks of one frame. *)
Lemma frame_effect (starts : list Z) :
  forall s : State,
    let s' := fold_left (fun st start => animate start (now st) st) starts s in
    frames s' =
      (frames s ++ filter (keepsAnimating (stage s) (now s)) starts)%list /\
    optimizationProgress s'
    = match starts with
      | [] => optimizationProgress s
      | _ => Qmin 1 (inject_Z (now s - last starts 0) / inject_Z 5000)
      end /\
    stage s' = stage s /\ now s' = now s /\ timers s' = timers s.
Proof.
  induction starts as [| start starts IH]; intros s; cbn [fold_left].
  - cbn. rewrite app_nil_r. repeat split.
  - destruct (animate_effect start s) as [Hf [Hp [Hs [Hn Ht]]]].
    destruct (IH (animate start (now s) s)) as [Hf' [Hp' [Hs' [Hn' Ht']]]].
    cbv zeta in *.
    rewrite Hf', Hp', Hs', Hn', Ht', Hf, Hp, Hs, Hn, Ht.
    split; [ | split; [ | repeat split]].
    + cbn [filter]. rewrite <- app_assoc.
      destruct (keepsAnimating (stage s) (now s) start); reflexivity.
    + destruct starts; reflexivity.
Qed.

(** X15. A frame calls every pending animation callback once, with the
    time of the frame; the callbacks that ask for another frame are those
    started less than 5000 ms ago, and only while the stage is
    optimizing.  The progress shown is the one the last callback writes;
    the stage, the clock and the timers are untouched.  Once the stage
    has left optimizing, a frame leaves no callback pending. *)
Theorem frame_keeps_young_animations (s : State) :
  frames s <> [] ->
  exists s',
    step AnimationFrame s = Some s' /\
    frames s' = filter (keepsAnimating (stage s) (now s)) (frames s) /\
    optimizationProgress s'
    = Qmin 1 (inject_Z (now s - last (frames s) 0) / inject_Z 5000) /\
    stage s' = stage s /\ now s' = now s /\ timers s' = timers s /\
    (stage s <> optimizing -> frames s' = []).
Proof.
  intros Hframes. cbn [step].
  destruct (frames s) as [| start starts] eqn:Hpending; [contradiction | ].
  eexists. split; [reflexivity | ].
  destruct (frame_effect (start :: starts) (set_frames [] s))
    as [Hf [Hp [Hs [Hn Ht]]]].
  cbv zeta in *.
  change (frames (set_frames [] s)) with (@nil Z) in Hf.
  change (stage (set_frames [] s)) with (stage s) in *.
  change (now (set_frames [] s)) with (now s) in *.
  change (timers (set_frames [] s)) with (timers s) in *.
  split; [exact Hf | ].
  split; [exact Hp | ].
  split; [exact Hs | split; [exact Hn | split; [exact Ht | ]]].
  intros Hstage. rewrite Hf. cbn [app].
  apply LiveFacts.filter_none.
  intros x _. unfold keepsAnimating.
  destruct (stage s); try (apply andb_false_r). contradiction.
Qed.

Lemma frame_keeps_young_animations_witness :
  option_map (fun s => (optimizationProgress s, frames s))
    (step AnimationFrame
       (mkState false swedish None (mkByKey None None None) (mkByKey [] [] [])
          optimizing None None None None 0 [] false 0%Q
          2000 [(2500, OptimizeDone)] [1600]))
  = Some (Qmin 1 (inject_Z 400 / inject_Z 5000), [1600]).
Proof.
  destruct (frame_keeps_young_animations
              (mkState false swedish None (mkByKey None None None)
                 (mkByKey [] [] [])
                 optimizing None None None None 0 [] false 0%Q
                 2000 [(2500, OptimizeDone)] [1600]))
    as [s' [Hstep [Hf [Hp _]]]]; [discriminate | ].
  rewrite Hstep. cbn [option_map]. rewrite Hf, Hp. reflexivity.
Defined.






(** *** The timing of a run *)






End BenchmarkExtra.

(** * Properties of the application shell, [App.vue] *)
Module AppFacts.
Import App.







(** The events of a view leave the active tab and the browser alone. *)
Lemma view_step_keeps_tab (e : Event) (s s' : State) :
  step e s = Some s' -> isClickTab e = false ->
  activeTab s' = activeTab s /\ cameraApi s' = cameraApi s.
Proof.
  intros Hstep Hview.
  destruct e as [k | e | e]; [discriminate Hview | | ]; unfold step in Hstep.
  - destruct (mountedView s) as [b | l]; [ | discriminate].
    destruct (Benchmark.step e b) as [b' | ]; [ | discriminate].
    injection Hstep as <-. split; reflexivity.
  - destruct (mountedView s) as [b | l]; [destruct e; discriminate | ].
    destruct (Live.step e l) as [l' | ]; destruct e;
      cbn [option_map] in Hstep; try discriminate;
      injection Hstep as <-; split; reflexivity.
Qed.

Lemma view_run_keeps_tab (es : list Event) :
  forall s s', run es s = Some s' -> forallb (fun e => negb (isClickTab e)) es = true ->
               activeTab s' = activeTab s /\ cameraApi s' = cameraApi s.
Proof.
  induction es as [| e es IH]; intros s s' Hrun Hview; cbn [run] in Hrun.
  - injection Hrun as <-. split; reflexivity.
  - cbn [forallb] in Hview. apply andb_true_iff in Hview as [He Hes].
    apply negb_true_iff in He.
    destruct (step e s) as [s1 | ] eqn:Hstep; [ | discriminate].
    destruct (IH s1 s' Hrun Hes) as [-> ->].
    apply (view_step_keeps_tab e s s1 Hstep He).
Qed.

(** X20. A click on the active tab changes nothing.  A click on the other
    tab mounts the other view as it is when first mounted, and, whatever
    is then done in that view, the click back mounts the first view as it
    is when first mounted: what the view held (the attached folders and
    the history of the benchmark view, the result of the live view) is
    gone. *)
Theorem tab_round_trip_starts_afresh
    (s : State) (k : TabKey) (es : list Event) (s2 : State) :
  k <> activeTab s ->
  forallb (fun e => negb (isClickTab e)) es = true ->
  run (ClickTab k :: es) s = Some s2 ->
  step (ClickTab (activeTab s)) s = Some s /\
  (exists s1, step (ClickTab k) s = Some s1 /\
              activeTab s1 = k /\ mountedView s1 = mount k (cameraApi s)) /\
  exists s3, step (ClickTab (activeTab s)) s2 = Some s3 /\
             activeTab s3 = activeTab s /\
             mountedView s3 = mount (activeTab s) (cameraApi s).
Proof.
  intros Hother Hview Hrun.
  assert (Hneq : TabKey_eqb k (activeTab s) = false)
    by (destruct k, (activeTab s); try reflexivity; contradiction Hother; reflexivity).
  assert (Hrefl : forall a, TabKey_eqb a a = true) by (intros []; reflexivity).
  split; [cbn [step]; unfold clickTab; rewrite Hrefl; reflexivity | ].
  cbn [run step] in Hrun.
  assert (Hs1 : clickTab k s =
                mkState k (mount k (cameraApi s))
                  (match mountedView s with
                   | LiveIdentification l => Live.unmount l :: detached s
                   | BenchmarkTraining _ => detached s
                   end) (cameraApi s))
    by (unfold clickTab; rewrite Hneq; reflexivity).
  split.
  - exists (clickTab k s). split; [reflexivity | ]. rewrite Hs1. split; reflexivity.
  - destruct (view_run_keeps_tab es (clickTab k s) s2 Hrun Hview) as [Htab Hapi].
    rewrite Hs1 in Htab, Hapi. cbn [activeTab cameraApi] in Htab, Hapi.
    exists (clickTab (activeTab s) s2).
    split; [reflexivity | ].
    unfold clickTab. rewrite Htab.
    assert (Hback : TabKey_eqb (activeTab s) k = false)
      by (destruct k, (activeTab s); try reflexivity; discriminate Hneq).
    rewrite Hback. cbn [activeTab mountedView]. rewrite Hapi.
    split; reflexivity.
Qed.

Lemma tab_round_trip_starts_afresh_witness :
  option_map (fun s => (activeTab s, mountedView s))
    (run [ClickTab live;
          InLive Live.ClickOpenCamera;
          InLive (Live.MediaSettled 0
                    (Live.Resolved (Some (Dom.mkStream [7%nat]))));
          ClickTab benchmark]
       (init true))
  = Some (benchmark, BenchmarkTraining Benchmark.init).
Proof.
  destruct (run [ClickTab live;
                 InLive Live.ClickOpenCamera;
                 InLive (Live.MediaSettled 0
                           (Live.Resolved (Some (Dom.mkStream [7%nat]))))]
              (init true)) as [s2 | ] eqn:Hrun;
    [ | vm_compute in Hrun; discriminate].
  destruct (tab_round_trip_starts_afresh (init true) live
              [InLive Live.ClickOpenCamera;
               InLive (Live.MediaSettled 0
                         (Live.Resolved (Some (Dom.mkStream [7%nat]))))]
              s2 ltac:(discriminate) eq_refl Hrun)
    as [_ [_ [s3 [Hback [Htab Hview]]]]].
  transitivity (option_map (fun s => (activeTab s, mountedView s))
                  (step (ClickTab benchmark) s2)).
  - change (run [ClickTab live;
                 InLive Live.ClickOpenCamera;
                 InLive (Live.MediaSettled 0
                           (Live.Resolved (Some (Dom.mkStream [7%nat]))));
                 ClickTab benchmark] (init true))
      with (match run [ClickTab live;
                       InLive Live.ClickOpenCamera;
                       InLive (Live.MediaSettled 0
                                 (Live.Resolved (Some (Dom.mkStream [7%nat]))))]
                    (init true) with
            | Some s => step (ClickTab benchmark) s
            | None => None
            end).
    rewrite Hrun. reflexivity.
  - change (activeTab (init true)) with benchmark in Hback, Htab, Hview.
    rewrite Hback. cbn [option_map]. rewrite Htab, Hview. reflexivity.
Defined.

End AppFacts.
